(** * Economic calendar fetcher: identity, merge and notification triggers

    A shallow embedding of [fetch_calendar.py] (class
    [EconomicCalendarFetcher] and [main]) together with the properties of
    its event-lifecycle pipeline.

    Conventions of the embedding.
    - A Python [str] is a Rocq [string] holding the UTF-8 bytes of the text,
      so [str.encode()] is the identity on the bytes.
    - An event dictionary is the record [Event], with the keys of the
      document that [save_calendar_data] writes; the defaults of [dict.get]
      for keys missing from a stored event are therefore not needed. The
      dictionary built in [merge_with_existing] is a [gmap string Event].
    - [merge_with_existing] and [check_and_send_notifications] update the
      event dictionaries in place and return lists of the same objects; the
      lists they were given are not read again, so the embedding returns the
      updated events.
    - [datetime] values are counted in microseconds ([Z]); a [timedelta] is a
      difference of two of them.
    - Python floats are idealised by exact rationals ([Q]): rounding, signed
      zeros, infinities and NaN are not represented.
    - Library functions whose behaviour the source does not contain
      ([datetime.strptime], [float]) are parameters of the development.
    - Calls of [send_telegram_notification] are recorded in a log of
      [Attempt]s, threaded through the evaluator; the network is an oracle
      that gives the outcome of each call. *)

From Stdlib Require Import ZArith QArith Qround Qabs Ascii String List Lia Bool.
From stdpp Require Import base option list strings gmap fin_maps.

Local Open Scope Z_scope.

(** ** MD5 (RFC 1321), as computed by [hashlib.md5] *)

Module MD5.

Definition mask32 (x : Z) : Z := x mod 2 ^ 32.

Definition add32 (x y : Z) : Z := mask32 (x + y).

Definition not32 (x : Z) : Z := mask32 (Z.lnot x).

Definition rotl32 (x c : Z) : Z :=
  Z.lor (mask32 (Z.shiftl x c)) (Z.shiftr (mask32 x) (32 - c)).

Definition shifts : list Z :=
  [7; 12; 17; 22; 7; 12; 17; 22; 7; 12; 17; 22; 7; 12; 17; 22;
   5; 9; 14; 20; 5; 9; 14; 20; 5; 9; 14; 20; 5; 9; 14; 20;
   4; 11; 16; 23; 4; 11; 16; 23; 4; 11; 16; 23; 4; 11; 16; 23;
   6; 10; 15; 21; 6; 10; 15; 21; 6; 10; 15; 21; 6; 10; 15; 21].

Definition sines : list Z :=
  [0xd76aa478; 0xe8c7b756; 0x242070db; 0xc1bdceee; 0xf57c0faf; 0x4787c62a; 0xa8304613; 0xfd469501;
   0x698098d8; 0x8b44f7af; 0xffff5bb1; 0x895cd7be; 0x6b901122; 0xfd987193; 0xa679438e; 0x49b40821;
   0xf61e2562; 0xc040b340; 0x265e5a51; 0xe9b6c7aa; 0xd62f105d; 0x02441453; 0xd8a1e681; 0xe7d3fbc8;
   0x21e1cde6; 0xc33707d6; 0xf4d50d87; 0x455a14ed; 0xa9e3e905; 0xfcefa3f8; 0x676f02d9; 0x8d2a4c8a;
   0xfffa3942; 0x8771f681; 0x6d9d6122; 0xfde5380c; 0xa4beea44; 0x4bdecfa9; 0xf6bb4b60; 0xbebfbc70;
   0x289b7ec6; 0xeaa127fa; 0xd4ef3085; 0x04881d05; 0xd9d4d039; 0xe6db99e5; 0x1fa27cf8; 0xc4ac5665;
   0xf4292244; 0x432aff97; 0xab9423a7; 0xfc93a039; 0x655b59c3; 0x8f0ccc92; 0xffeff47d; 0x85845dd1;
   0x6fa87e4f; 0xfe2ce6e0; 0xa3014314; 0x4e0811a1; 0xf7537e82; 0xbd3af235; 0x2ad7d2bb; 0xeb86d391].

(** The message followed by the bit 1, zero bytes up to 56 modulo 64 and
    the bit length as a 64-bit little-endian number. *)
Definition le_bytes (n : nat) (x : Z) : list Z :=
  map (fun i => Z.shiftr x (8 * Z.of_nat i) mod 256) (seq 0 n).

Definition padding (len : Z) : list Z :=
  0x80 :: repeat 0 (Z.to_nat ((55 - len) mod 64)) ++ le_bytes 8 (8 * len).

Definition pad (msg : list Z) : list Z :=
  msg ++ padding (Z.of_nat (length msg)).

Definition word_le (bs : list Z) : Z :=
  foldr (fun b acc => b + 256 * acc) 0 bs.

Fixpoint words_le (fuel : nat) (bs : list Z) : list Z :=
  match fuel, bs with
  | S fuel', _ :: _ => word_le (take 4 bs) :: words_le fuel' (drop 4 bs)
  | _, _ => []
  end.

Record state := State { sa : Z; sb : Z; sc : Z; sd : Z }.

Definition init : state :=
  State 0x67452301 0xefcdab89 0x98badcfe 0x10325476.

Definition round (M : list Z) (st : state) (i : nat) : state :=
  let '(State A B C D) := st in
  let '(F, g) :=
    if (i <? 16)%nat then (Z.lor (Z.land B C) (Z.land (not32 B) D), i)
    else if (i <? 32)%nat then
      (Z.lor (Z.land D B) (Z.land (not32 D) C), (5 * i + 1) mod 16)%nat
    else if (i <? 48)%nat then
      (Z.lxor (Z.lxor B C) D, (3 * i + 5) mod 16)%nat
    else (Z.lxor C (Z.lor B (not32 D)), (7 * i) mod 16)%nat in
  let F' := add32 (add32 (add32 F A) (nth i sines 0)) (nth g M 0) in
  State D (add32 B (rotl32 F' (nth i shifts 0))) B C.

Definition compress (st : state) (M : list Z) : state :=
  let '(State A B C D) := foldl (round M) st (seq 0 64) in
  State (add32 (sa st) A) (add32 (sb st) B) (add32 (sc st) C) (add32 (sd st) D).

Fixpoint chunks (fuel : nat) (ws : list Z) : list (list Z) :=
  match fuel, ws with
  | S fuel', _ :: _ => take 16 ws :: chunks fuel' (drop 16 ws)
  | _, _ => []
  end.

Definition digest (msg : list Z) : list Z :=
  let bs := pad msg in
  let ws := words_le (length bs) bs in
  let st := foldl compress init (chunks (length ws) ws) in
  le_bytes 4 (sa st) ++ le_bytes 4 (sb st) ++ le_bytes 4 (sc st) ++ le_bytes 4 (sd st).

Definition hex_digit (x : Z) : ascii :=
  nth (Z.to_nat (x mod 16)) (list_ascii_of_string "0123456789abcdef") "0"%char.

Definition hex_byte (b : Z) : list ascii := [hex_digit (b / 16); hex_digit b].

Definition bytes_of_string (s : string) : list Z :=
  map (fun c => Z.of_N (N_of_ascii c)) (list_ascii_of_string s).

Definition hexdigest (s : string) : string :=
  string_of_list_ascii (concat (map hex_byte (digest (bytes_of_string s)))).

End MD5.

(** ** Python built-ins used by the source *)

Module Py.

Local Open Scope string_scope.

(** Truthiness of an [Optional[str]]: [None] and the empty string are
    false. *)
Definition truthy (o : option string) : bool :=
  match o with
  | Some s => negb (String.eqb s "")
  | None => false
  end.

(** [o or default] for an [Optional[str]]. *)
Definition or_else (o : option string) (default : string) : string :=
  match o with
  | Some s => if String.eqb s "" then default else s
  | None => default
  end.

(** [f"{o}"] for an [Optional[str]]. *)
Definition str (o : option string) : string :=
  match o with
  | Some s => s
  | None => "None"
  end.

(** [s.replace(c, new)] for a one-character pattern [c]. *)
Fixpoint replace (c : ascii) (new : string) (s : string) : string :=
  match s with
  | EmptyString => EmptyString
  | String a s' =>
      if Ascii.eqb a c then new +:+ replace c new s'
      else String a (replace c new s')
  end.

(** [s[:n]]. *)
Fixpoint slice_to (n : nat) (s : string) : string :=
  match n, s with
  | S n', String a s' => String a (slice_to n' s')
  | _, _ => EmptyString
  end.

(** White space as [str.split()] sees it: the characters for which
    [str.isspace()] holds, in their UTF-8 bytes. Those of one byte are the
    tab to the carriage return, U+001C to U+001F and the space. *)
Definition is_space (a : ascii) : bool :=
  let n := N_of_ascii a in
  ((9 <=? n) && (n <=? 13) || (28 <=? n) && (n <=? 32))%N.

(** Those of two bytes: U+0085 and U+00A0. *)
Definition is_space2 (a b : ascii) : bool :=
  Ascii.eqb a "194" && (Ascii.eqb b "133" || Ascii.eqb b "160").

(** Those of three bytes: U+1680, U+2000 to U+200A, U+2028, U+2029, U+202F,
    U+205F and U+3000. *)
Definition is_space3 (a b c : ascii) : bool :=
  let n := N_of_ascii c in
  Ascii.eqb a "225" && Ascii.eqb b "154" && Ascii.eqb c "128"
  || Ascii.eqb a "226" && Ascii.eqb b "128"
     && ((128 <=? n)%N && (n <=? 138)%N
         || Ascii.eqb c "168" || Ascii.eqb c "169" || Ascii.eqb c "175")
  || Ascii.eqb a "226" && Ascii.eqb b "129" && Ascii.eqb c "159"
  || Ascii.eqb a "227" && Ascii.eqb b "128" && Ascii.eqb c "128".

(** The number of bytes of the white space character that [s] starts with,
    0 when it starts with none. *)
Definition space_width (s : string) : nat :=
  match s with
  | String a s1 =>
      if is_space a then 1%nat else
      match s1 with
      | String b s2 =>
          if is_space2 a b then 2%nat else
          match s2 with
          | String c _ => if is_space3 a b c then 3%nat else 0%nat
          | EmptyString => 0%nat
          end
      | EmptyString => 0%nat
      end
  | EmptyString => 0%nat
  end.

(** [s.split()]: the maximal runs of characters that are not white space.
    [cur] is the run being read, in reverse, and [skip] the number of bytes
    still to pass over of the white space character being read. *)
Fixpoint split_from (skip : nat) (cur : list ascii) (s : string) : list string :=
  let flush :=
    match cur with
    | [] => []
    | _ => [string_of_list_ascii (rev cur)]
    end in
  match s with
  | EmptyString => flush
  | String a s' =>
      match skip with
      | S skip' => split_from skip' cur s'
      | O =>
          match space_width (String a s') with
          | O => split_from O (a :: cur) s'
          | S width' => flush ++ split_from width' [] s'
          end
      end
  end.

Definition split (s : string) : list string := split_from 0 [] s.

(** [sep.join(parts)]. *)
Fixpoint join (sep : string) (parts : list string) : string :=
  match parts with
  | [] => ""
  | [p] => p
  | p :: rest => p +:+ sep +:+ join sep rest
  end.

Definition digit_char (d : Z) : ascii :=
  ascii_of_N (48 + Z.to_N (d mod 10)%Z)%N.

(** Decimal digits of a non-negative number, most significant first;
    [fuel] bounds the number of digits. *)
Fixpoint digits_from (fuel : nat) (n : Z) (acc : string) : string :=
  match fuel with
  | O => acc
  | S fuel' =>
      let acc' := String (digit_char n) acc in
      if (n <? 10)%Z then acc' else digits_from fuel' (n / 10)%Z acc'
  end.

Definition str_of_nonneg (n : Z) : string :=
  digits_from (S (Z.to_nat (Z.log2 n))) n "".

Fixpoint zeros (n : nat) : string :=
  match n with O => "" | S n' => String "0" (zeros n') end.

(** [f"{n:0{width}d}"] for a non-negative [n]. *)
Definition zero_pad (width : nat) (n : Z) : string :=
  let s := str_of_nonneg n in
  zeros (width - String.length s)%nat +:+ s.

(** Rounding of a rational to the nearest integer, ties to even. *)
Definition round_half_even (x : Q) : Z :=
  let fl := Qfloor x in
  let r := (x - inject_Z fl)%Q in
  match (r ?= 1 # 2)%Q with
  | Lt => fl
  | Gt => (fl + 1)%Z
  | Eq => if Z.even fl then fl else (fl + 1)%Z
  end.

(** [f"{x:.1f}"] ([plus = false]) and [f"{x:+.1f}"] ([plus = true]) on the
    exact value [x]. Python formats the binary double that stands for [x]:
    its text differs from this one in the last digit when the double lies on
    the other side of a rounding boundary (0.15 is printed 0.1, the exact
    value 0.2), and a negative zero is printed with a minus sign. The
    statements below do not rest on the digits of a formatted number, but
    for one message computed on an input where the two agree. *)
Definition format_1f (plus : bool) (x : Q) : string :=
  let t := round_half_even (Qabs x * 10)%Q in
  let sign :=
    if Qlt_le_dec x 0 then "-" else if plus then "+" else "" in
  sign +:+ str_of_nonneg (t / 10)%Z +:+ "." +:+ str_of_nonneg (t mod 10)%Z.

(** *** Plain decimal literals

    [float] on an optional sign, digits and an optional fraction, with its
    exact value. Python's [float] accepts these strings with this value up
    to rounding (and accepts more: exponents, white space, [inf], [nan]);
    it is the instance used when a statement is run on concrete events. *)

Fixpoint read_decimal (seen_digit seen_point : bool) (num : Z) (den : positive)
    (s : string) : option Q :=
  match s with
  | EmptyString => if seen_digit then Some (num # den) else None
  | String a s' =>
      let n := Z.of_N (N_of_ascii a) in
      if ((48 <=? n) && (n <=? 57))%Z then
        read_decimal true seen_point (10 * num + (n - 48))%Z
                     (if seen_point then (10 * den)%positive else den) s'
      else if Ascii.eqb a "." && negb seen_point then
        read_decimal seen_digit true num den s'
      else None
  end.

Definition float_decimal (s : string) : option Q :=
  match s with
  | String "-" s' => option_map Qopp (read_decimal false false 0 1 s')
  | String "+" s' => read_decimal false false 0 1 s'
  | _ => read_decimal false false 0 1 s
  end.

End Py.

(** ** Naive [datetime] values

    A [datetime] is the number of microseconds since 1970-01-01 00:00 of the
    proleptic Gregorian calendar, so that comparison, subtraction and
    [timedelta] addition are the operations of [Z]. *)

Module Datetime.

Definition datetime := Z.

Definition us_per_second : Z := 1000000.
Definition us_per_minute : Z := 60 * us_per_second.
Definition us_per_hour : Z := 3600 * us_per_second.
Definition us_per_day : Z := 86400 * us_per_second.

(** [timedelta(days=n)]. *)
Definition timedelta_days (n : Z) : Z := n * us_per_day.

Definition days_from_civil (y m d : Z) : Z :=
  let y' := if m <=? 2 then y - 1 else y in
  let era := y' / 400 in
  let yoe := y' - era * 400 in
  let mp := (m + 9) mod 12 in
  let doy := (153 * mp + 2) / 5 + d - 1 in
  let doe := yoe * 365 + yoe / 4 - yoe / 100 + doy in
  era * 146097 + doe - 719468.

Definition civil_from_days (z : Z) : Z * Z * Z :=
  let z := z + 719468 in
  let era := z / 146097 in
  let doe := z - era * 146097 in
  let yoe := (doe - doe / 1460 + doe / 36524 - doe / 146096) / 365 in
  let doy := doe - (365 * yoe + yoe / 4 - yoe / 100) in
  let mp := (5 * doy + 2) / 153 in
  let d := doy - (153 * mp + 2) / 5 + 1 in
  let m := if mp <? 10 then mp + 3 else mp - 9 in
  let y := yoe + era * 400 in
  (if m <=? 2 then y + 1 else y, m, d).

(** [datetime(y, m, d, hh, mi, ss)]. *)
Definition make (y m d hh mi ss : Z) : datetime :=
  days_from_civil y m d * us_per_day
  + hh * us_per_hour + mi * us_per_minute + ss * us_per_second.

(** [dt.strftime('%Y-%m-%d')]. *)
Definition strftime_date (dt : datetime) : string :=
  let '(y, m, d) := civil_from_days (dt / us_per_day) in
  (Py.zero_pad 4 y +:+ "-" +:+ Py.zero_pad 2 m +:+ "-" +:+ Py.zero_pad 2 d)%string.

(** [dt.strftime('%H:%M')]. *)
Definition strftime_hm (dt : datetime) : string :=
  let us := dt mod us_per_day in
  (Py.zero_pad 2 (us / us_per_hour) +:+ ":"
   +:+ Py.zero_pad 2 (us mod us_per_hour / us_per_minute))%string.

(** [td.total_seconds() / 3600] of a [timedelta] given in microseconds, as
    the exact quotient. The comparisons of the source with 0 and 12 give the
    same answers on the float: both divisions are correctly rounded, hence
    monotone, 0 and 12 hours are computed exactly, and one microsecond to
    either side of them is far above the rounding error. *)
Definition hours (td : Z) : Q := td # Z.to_pos us_per_hour.

(** *** A strict reading of [strptime]

    [%Y] is four digits and [%m %d %H %M %S] two digits each, any other
    character of the format stands for itself. Python accepts every string
    this parser accepts, with the same value; it is the instance used when a
    statement is run on concrete events. *)

Definition digit_of (a : ascii) : option Z :=
  let n := Z.of_N (N_of_ascii a) in
  if (48 <=? n) && (n <=? 57) then Some (n - 48) else None.

Fixpoint read_digits (n : nat) (acc : Z) (s : string) : option (Z * string) :=
  match n with
  | O => Some (acc, s)
  | S n' =>
      match s with
      | String a s' =>
          match digit_of a with
          | Some d => read_digits n' (10 * acc + d) s'
          | None => None
          end
      | EmptyString => None
      end
  end.

Record fields := Fields { fY : Z; fm : Z; fd : Z; fH : Z; fM : Z; fS : Z }.

Definition set_field (c : ascii) (v : Z) (f : fields) : option fields :=
  let '(Fields y m d hh mi ss) := f in
  if Ascii.eqb c "Y" then Some (Fields v m d hh mi ss)
  else if Ascii.eqb c "m" then Some (Fields y v d hh mi ss)
  else if Ascii.eqb c "d" then Some (Fields y m v hh mi ss)
  else if Ascii.eqb c "H" then Some (Fields y m d v mi ss)
  else if Ascii.eqb c "M" then Some (Fields y m d hh v ss)
  else if Ascii.eqb c "S" then Some (Fields y m d hh mi v)
  else None.

Fixpoint scan (format data : string) (f : fields) : option fields :=
  match format with
  | EmptyString =>
      match data with EmptyString => Some f | _ => None end
  | String "%" (String c format') =>
      match read_digits (if Ascii.eqb c "Y" then 4 else 2) 0 data with
      | Some (v, data') =>
          match set_field c v f with
          | Some f' => scan format' data' f'
          | None => None
          end
      | None => None
      end
  | String a format' =>
      match data with
      | String b data' => if Ascii.eqb a b then scan format' data' f else None
      | EmptyString => None
      end
  end.

Definition days_in_month (y m : Z) : Z :=
  days_from_civil (if m =? 12 then y + 1 else y) (if m =? 12 then 1 else m + 1) 1
  - days_from_civil y m 1.

Definition strptime_strict (data format : string) : option datetime :=
  match scan format data (Fields 1900 1 1 0 0 0) with
  | Some (Fields y m d hh mi ss) =>
      if (1 <=? y) && (1 <=? m) && (m <=? 12) && (1 <=? d)
         && (d <=? days_in_month y m) && (hh <=? 23) && (mi <=? 59) && (ss <=? 59)
      then Some (make y m d hh mi ss) else None
  | None => None
  end.

End Datetime.

(** ** Data model *)

(** An event dictionary, with the keys of the persisted document. *)
Record Event := mkEvent {
  id : string;
  date : string;
  time : string;
  name : string;
  impact : string;
  forecast : option string;
  actual : option string;
  previous : option string;
  status : string;
  notification_sent_12h : bool;
  notification_sent_release : bool
}.

(** Assignments to single keys of an event dictionary. *)
Definition set_notification_sent_12h (b : bool) (e : Event) : Event :=
  mkEvent (id e) (date e) (time e) (name e) (impact e) (forecast e) (actual e)
          (previous e) (status e) b (notification_sent_release e).

Definition set_notification_sent_release (b : bool) (e : Event) : Event :=
  mkEvent (id e) (date e) (time e) (name e) (impact e) (forecast e) (actual e)
          (previous e) (status e) (notification_sent_12h e) b.

Definition set_status (s : string) (e : Event) : Event :=
  mkEvent (id e) (date e) (time e) (name e) (impact e) (forecast e) (actual e)
          (previous e) s (notification_sent_12h e) (notification_sent_release e).

(** The document of [calendar_data.json]. *)
Record CalendarData := mkCalendarData {
  updated_at : option string;
  events : list Event
}.

(** The attributes of [self] that the methods read. *)
Record EconomicCalendarFetcher := mkFetcher {
  telegram_bot_token : string;
  telegram_chat_id : string
}.

(** One [tr.js-event-item] row of the provider's markup, as BeautifulSoup
    exposes it: the [data-event-datetime] attribute (empty when missing) and,
    for each cell, [None] when the cell is missing and its stripped text
    otherwise; for the [sentiment] cell the [data-img_key] attribute. *)
Record RawRow := mkRawRow {
  data_event_datetime : string;
  flagCur : option string;
  sentiment : option string;
  event_cell : option string;
  time_cell : option string;
  fore : option string;
  act : option string;
  prev : option string
}.

(** What the POST to the provider gives: an exception anywhere in the
    request, an envelope whose [data] field is empty, or markup with its
    event rows. *)
Inductive Response :=
| RequestFailed
| NoData
| Markup (event_rows : list RawRow).

(** The two notifications. *)
Inductive Trigger := TriggerA | TriggerB.

#[global] Instance Trigger_eq_dec : EqDecision Trigger.
Proof. solve_decision. Defined.

(** One call of [send_telegram_notification]: which trigger asked for it,
    for which event (as it was when the trigger was evaluated), with which
    text and with which result. *)
Record Attempt := mkAttempt {
  attempt_trigger : Trigger;
  attempt_event : Event;
  attempt_message : string;
  attempt_ok : bool
}.

(** The file [calendar_data.json]: missing, not loadable as JSON, or a
    document. *)
Inductive File :=
| Missing
| Unreadable (content : string)
| Document (data : CalendarData).

(** ** The methods of [EconomicCalendarFetcher] *)

Section Fetcher.

(** [datetime.strptime(data, format)]; [None] stands for [ValueError]. *)
Variable strptime : string -> string -> option Datetime.datetime.

(** [float(s)]; [None] stands for [ValueError]. *)
Variable float : string -> option Q.

Definition generate_event_id (self : EconomicCalendarFetcher)
    (date name : string) : string :=
  let unique_str := (date +:+ "_" +:+ name)%string in
  Py.slice_to 16 (MD5.hexdigest unique_str).

Definition load_existing_data (file : File) : CalendarData :=
  match file with
  | Document data => data
  | Missing => mkCalendarData None []
  | Unreadable _ => mkCalendarData None []
  end.

(** The provider's placeholders for "no value": the empty string and a
    no-break space. *)
Definition blank_to_none (cell : option string) : option string :=
  match cell with
  | Some s =>
      if String.eqb s "" || String.eqb s (String "194" (String "160" ""))
      then None else Some s
  | None => None
  end.

(** The body of the loop over [event_rows]; [None] stands for [continue]. *)
Definition normalize_row (self : EconomicCalendarFetcher)
    (start_date end_date : Datetime.datetime) (row : RawRow) : option Event :=
  let event_datetime_str := data_event_datetime row in
  if String.eqb event_datetime_str "" then None else
  match strptime event_datetime_str "%Y/%m/%d %H:%M:%S" with
  | None => None
  | Some event_datetime =>
      if (event_datetime <? start_date) || (event_datetime >? end_date) then None else
      match flagCur row with
      | None => None
      | Some currency =>
          if negb (String.eqb currency "USD") then None else
          match sentiment row with
          | None => None
          | Some img_key =>
              if negb (String.eqb img_key "bull2" || String.eqb img_key "bull3")
              then None else
              let impact :=
                (if String.eqb img_key "bull3" then "High" else "Medium")%string in
              let name :=
                match event_cell row with
                | Some text => text
                | None => "Unknown Event"%string
                end in
              let name := Py.join " " (Py.split name) in
              let event_time :=
                match time_cell row with
                | Some text => text
                | None => Datetime.strftime_hm event_datetime
                end in
              let forecast := blank_to_none (fore row) in
              let actual := blank_to_none (act row) in
              let previous := blank_to_none (prev row) in
              let status :=
                (if Py.truthy actual then "completed" else "upcoming")%string in
              let event_date := Datetime.strftime_date event_datetime in
              Some (mkEvent (generate_event_id self event_date name)
                            event_date event_time name impact
                            forecast actual previous status false false)
          end
      end
  end.

Definition fetch_calendar_events (self : EconomicCalendarFetcher)
    (now : Datetime.datetime) (response : Response) : list Event :=
  let start_date := now in
  let end_date := start_date + Datetime.timedelta_days 28 in
  match response with
  | RequestFailed => []
  | NoData => []
  | Markup event_rows =>
      omap (normalize_row self start_date end_date) event_rows
  end.

(** *** [merge_with_existing] *)

(** [{event['id']: event for event in old_events}]: a later entry replaces
    an earlier one with the same id. *)
Definition old_events_map (old_events : list Event) : gmap string Event :=
  foldl (fun m event => <[id event := event]> m) ∅ old_events.

(** The body of the loop over [new_events]. *)
Definition merge_event (old_events_map : gmap string Event)
    (new_event : Event) : Event :=
  let event_id := id new_event in
  match old_events_map !! event_id with
  | Some old_event =>
      let new_event :=
        set_notification_sent_12h (notification_sent_12h old_event) new_event in
      let new_event :=
        set_notification_sent_release (notification_sent_release old_event) new_event in
      if Py.truthy (actual new_event) && negb (Py.truthy (actual old_event))
      then set_status "completed" new_event
      else new_event
  | None => new_event
  end.

Definition merge_with_existing (new_events : list Event)
    (old_data : CalendarData) : list Event :=
  let old_events_map := old_events_map (events old_data) in
  merge_event old_events_map <$> new_events.

(** *** Messages *)

Definition nl : string := String "010" "".

Definition impact_emoji (event : Event) : string :=
  if String.eqb (impact event) "High" then "🔴" else "🟡".

Definition format_warning_message (self : EconomicCalendarFetcher)
    (event : Event) (hours_until : Q) : string :=
  let hours_str := (Py.format_1f false hours_until +:+ "h")%string in
  ("⚠️ <b>Upcoming Catalyst (" +:+ hours_str +:+ ")</b>" +:+ nl +:+ nl
   +:+ impact_emoji event +:+ " <b>" +:+ name event +:+ "</b>" +:+ nl
   +:+ "📅 " +:+ date event +:+ " at " +:+ time event +:+ nl
   +:+ "📊 Forecast: <b>" +:+ Py.or_else (forecast event) "N/A" +:+ "</b>" +:+ nl
   +:+ "⚡ Impact: <b>" +:+ impact event +:+ "</b>")%string.

(** [float(s.replace('K', '000').replace('%', ''))]. *)
Definition parse_value (s : string) : option Q :=
  float (Py.replace "%" "" (Py.replace "K" "000" s)).

(** The numbers of the deviation section: [None] when the section is left
    out (a value is missing or empty, or [float] raised), and otherwise
    [deviation] and [pct_deviation]. *)
Definition deviation_values (event : Event) : option (Q * Q) :=
  if Py.truthy (forecast event) && Py.truthy (actual event) then
    match forecast event, actual event with
    | Some forecast, Some actual =>
        match parse_value forecast with
        | Some forecast_val =>
            match parse_value actual with
            | Some actual_val =>
                let deviation := (actual_val - forecast_val)%Q in
                let pct_deviation :=
                  if negb (Qeq_bool forecast_val 0)
                  then (deviation / forecast_val * 100)%Q else 0%Q in
                Some (deviation, pct_deviation)
            | None => None
            end
        | None => None
        end
    | _, _ => None
    end
  else None.

Definition deviation_text (event : Event) : string :=
  match deviation_values event with
  | Some (deviation, pct_deviation) =>
      let deviation_emoji := if Qlt_le_dec 0 deviation then "🟢" else "🔴" in
      (nl +:+ deviation_emoji +:+ " Deviation: " +:+ Py.format_1f true deviation
       +:+ " (" +:+ Py.format_1f true pct_deviation +:+ "%)")%string
  | None => ""%string
  end.

Definition format_release_message (self : EconomicCalendarFetcher)
    (event : Event) : string :=
  ("📢 <b>Data Release</b>" +:+ nl +:+ nl
   +:+ impact_emoji event +:+ " <b>" +:+ name event +:+ "</b>" +:+ nl
   +:+ "📊 Actual: <b>" +:+ Py.str (actual event) +:+ "</b>" +:+ nl
   +:+ "🎯 Forecast: " +:+ Py.or_else (forecast event) "N/A" +:+ nl
   +:+ "📍 Previous: " +:+ Py.or_else (previous event) "N/A"
   +:+ deviation_text event +:+ nl +:+ nl
   +:+ "⏰ Released: " +:+ date event +:+ " " +:+ time event)%string.

(** *** Delivery

    [requests_post k message] is the outcome of the POST to the Telegram
    API made as the [k]-th call of [send_telegram_notification] of the run:
    [false] when the request raises. *)
Definition send_telegram_notification (self : EconomicCalendarFetcher)
    (requests_post : nat -> string -> bool) (k : nat) (message : string) : bool :=
  if String.eqb (telegram_bot_token self) "" || String.eqb (telegram_chat_id self) ""
  then false
  else requests_post k message.

(** *** [check_and_send_notifications] *)

Definition trigger_a_due (hours_until : Q) (event : Event) : bool :=
  Qle_bool 0 hours_until && Qle_bool hours_until 12
  && negb (notification_sent_12h event)
  && String.eqb (impact event) "High".

Definition trigger_b_due (event : Event) : bool :=
  String.eqb (status event) "completed"
  && Py.truthy (actual event)
  && negb (notification_sent_release event)
  && String.eqb (impact event) "High".

(** The body of the loop over [events]: the event as it is appended to
    [updated_events] and the calls of [send_telegram_notification] it
    made, [k] of them having been made before. *)
Definition check_event (self : EconomicCalendarFetcher)
    (requests_post : nat -> string -> bool) (now : Datetime.datetime)
    (k : nat) (event : Event) : Event * list Attempt :=
  let event_datetime_str := (date event +:+ " " +:+ time event)%string in
  match strptime event_datetime_str "%Y-%m-%d %H:%M" with
  | None => (event, [])
  | Some event_datetime =>
      let time_until_event := event_datetime - now in
      let hours_until := Datetime.hours time_until_event in
      let '(event, calls) :=
        if trigger_a_due hours_until event then
          let message := format_warning_message self event hours_until in
          let ok := send_telegram_notification self requests_post k message in
          (if ok then set_notification_sent_12h true event else event,
           [mkAttempt TriggerA event message ok])
        else (event, []) in
      if trigger_b_due event then
        let message := format_release_message self event in
        let ok :=
          send_telegram_notification self requests_post
            (k + length calls) message in
        (if ok then set_notification_sent_release true event else event,
         calls ++ [mkAttempt TriggerB event message ok])
      else (event, calls)
  end.

Fixpoint check_loop (self : EconomicCalendarFetcher)
    (requests_post : nat -> string -> bool) (now : Datetime.datetime)
    (events updated_events : list Event) (log : list Attempt)
    : list Event * list Attempt :=
  match events with
  | [] => (updated_events, log)
  | event :: rest =>
      let '(event', calls) :=
        check_event self requests_post now (length log) event in
      check_loop self requests_post now rest
                 (updated_events ++ [event']) (log ++ calls)
  end.

Definition check_and_send_notifications (self : EconomicCalendarFetcher)
    (requests_post : nat -> string -> bool) (now : Datetime.datetime)
    (events : list Event) : list Event * list Attempt :=
  check_loop self requests_post now events [] [].

(** *** [save_calendar_data] and [main] *)

(** What happens to the write: it goes through, [open] raises and the file
    stays as it was, or the dump stops part-way. *)
Inductive WriteOutcome :=
| Written
| OpenFailed
| DumpFailed (partial : string).

Definition save_calendar_data (self : EconomicCalendarFetcher)
    (events : list Event) (utcnow : string) (outcome : WriteOutcome)
    (file : File) : File :=
  let output := mkCalendarData (Some (utcnow +:+ "Z")%string) events in
  match outcome with
  | Written => Document output
  | OpenFailed => file
  | DumpFailed partial => Unreadable partial
  end.

(** What one run of [main] reads from its surroundings. *)
Record Run := mkRun {
  env_telegram_bot_token : string;
  env_telegram_chat_id : string;
  response : Response;
  fetch_now : Datetime.datetime;
  check_now : Datetime.datetime;
  utcnow_isoformat : string;
  requests_post : nat -> string -> bool;
  write_outcome : WriteOutcome
}.

Definition is_empty (l : list Event) : bool :=
  match l with [] => true | _ => false end.

(** [main]: the file after the run and the notification calls made. *)
Definition main (run : Run) (file : File) : File * list Attempt :=
  let fetcher :=
    mkFetcher (env_telegram_bot_token run) (env_telegram_chat_id run) in
  let old_data := load_existing_data file in
  let new_events := fetch_calendar_events fetcher (fetch_now run) (response run) in
  if is_empty new_events then (file, []) else
  let merged_events := merge_with_existing new_events old_data in
  let '(updated_events, log) :=
    check_and_send_notifications fetcher (requests_post run) (check_now run)
                                 merged_events in
  (save_calendar_data fetcher updated_events (utcnow_isoformat run)
                      (write_outcome run) file,
   log).

(** A sequence of runs on the same file, with all the calls made. *)
Fixpoint main_runs (runs : list Run) (file : File) : File * list Attempt :=
  match runs with
  | [] => (file, [])
  | run :: rest =>
      let '(file', log) := main run file in
      let '(file'', log') := main_runs rest file' in
      (file'', log ++ log')
  end.

End Fetcher.

(** ** Vocabulary of the statements *)

(** The keys that come from the fetch: everything but the status and the two
    notification flags. *)
Definition same_fetched_fields (e1 e2 : Event) : Prop :=
  id e1 = id e2 ∧ date e1 = date e2 ∧ time e1 = time e2 ∧ name e1 = name e2
  ∧ impact e1 = impact e2 ∧ forecast e1 = forecast e2 ∧ actual e1 = actual e2
  ∧ previous e1 = previous e2.

(** The notification flag that belongs to a trigger. *)
Definition flag (t : Trigger) (e : Event) : bool :=
  match t with
  | TriggerA => notification_sent_12h e
  | TriggerB => notification_sent_release e
  end.

(** The calls in a log made by trigger [t] for events with id [i]. *)
Definition fired (t : Trigger) (i : string) (log : list Attempt) : list Attempt :=
  filter (λ a, attempt_trigger a = t ∧ id (attempt_event a) = i) log.

(** The flag that a file holds for an id, as the merge of the next run will
    read it: the flag of the entry found in the dictionary of the loaded
    events, and [false] when there is none. *)
Definition stored_flag (t : Trigger) (i : string) (file : File) : bool :=
  match old_events_map (events (load_existing_data file)) !! i with
  | Some old_event => flag t old_event
  | None => false
  end.

Section RunVocabulary.

Variable strptime : string → string → option Datetime.datetime.

(** The events that a run fetches. *)
Definition batch (run : Run) : list Event :=
  fetch_calendar_events strptime
    (mkFetcher (env_telegram_bot_token run) (env_telegram_chat_id run))
    (fetch_now run) (response run).

(** From the first run that fetches the id on, every run that fetches
    anything fetches the id; [seen] tells whether an earlier run did. *)
Fixpoint retained (i : string) (seen : bool) (runs : list Run) : Prop :=
  match runs with
  | [] => True
  | run :: rest =>
      (seen = true → batch run ≠ [] → i ∈ id <$> batch run)
      ∧ retained i (seen || bool_decide (i ∈ id <$> batch run)) rest
  end.


End RunVocabulary.

(** An optional text as a fetched event holds it: absent, or a text that is
    neither empty nor the provider's no-break space. *)
Definition absent_or_text (o : option string) : Prop :=
  match o with
  | Some s => s ≠ ""%string ∧ s ≠ String "194" (String "160" "")
  | None => True
  end.

(** A text in which white space occurs only as single spaces between
    words: no white space at either end, no two adjacent white space
    characters, and no white space character other than the space, where
    white space is every character that [str.split()] splits at.
    [at_word_start] tells that the text so far is empty or ends in a space. *)
Fixpoint single_spaced (at_word_start : bool) (s : string) : bool :=
  match s with
  | EmptyString => negb at_word_start
  | String a s' =>
      match Py.space_width (String a s') with
      | O => single_spaced false s'
      | S _ => Ascii.eqb a " " && negb at_word_start && single_spaced true s'
      end
  end.

Definition whitespace_collapsed (s : string) : Prop :=
  s = ""%string ∨ single_spaced true s = true.

(** The digits of a lowercase hexadecimal numeral. *)
Definition is_hex_digit (a : ascii) : bool :=
  let n := N_of_ascii a in
  ((48 <=? n) && (n <=? 57) || (97 <=? n) && (n <=? 102))%N.

Fixpoint all_chars (p : ascii → bool) (s : string) : bool :=
  match s with
  | EmptyString => true
  | String a s' => p a && all_chars p s'
  end.

(** No white space character starts within [w] when [w] is followed by
    [r]. *)
Fixpoint tight_before (w r : string) : bool :=
  match w with
  | EmptyString => true
  | String a w' =>
      Nat.eqb (Py.space_width (String a (w' +:+ r))) 0 && tight_before w' r
  end.

(** An event that a run computes: an event of the fetched batch, of the
    merged list, of the updated list that is handed to the write, or the
    event of a notification call. *)
Definition produced (strptime : string → string → option Datetime.datetime)
    (float : string → option Q) (run : Run) (file : File) (event : Event) : Prop :=
  let fetcher :=
    mkFetcher (env_telegram_bot_token run) (env_telegram_chat_id run) in
  let new_events := fetch_calendar_events strptime fetcher (fetch_now run) (response run) in
  let merged_events := merge_with_existing new_events (load_existing_data file) in
  let checked :=
    check_and_send_notifications strptime float fetcher (requests_post run)
      (check_now run) merged_events in
  event ∈ new_events ∨ event ∈ merged_events ∨ event ∈ checked.1
  ∨ ∃ a, a ∈ checked.2 ∧ attempt_event a = event.
(** ** Concrete events, rows and runs

    The inputs on which the statements below are run. [strptime] is read
    strictly and [float] on plain decimal literals. *)

Module Scenario.

Local Open Scope string_scope.

Definition fetcher : EconomicCalendarFetcher := mkFetcher "bot-token" "chat-id".

(** A CPI release, first as announced and then with its actual value. *)
Definition cpi_upcoming : Event :=
  mkEvent "7ddc1d0f6a926e88" "2024-01-15" "21:30" "CPI m/m" "High"
          (Some "0.3%") None (Some "0.2%") "upcoming" false false.

Definition cpi_released : Event :=
  mkEvent "7ddc1d0f6a926e88" "2024-01-15" "21:30" "CPI m/m" "High"
          (Some "0.3%") (Some "0.4%") (Some "0.2%") "completed" true true.

Definition cpi_warned : Event := set_notification_sent_12h true cpi_upcoming.

Definition cpi_unannounced : Event :=
  set_notification_sent_release false cpi_released.

(** An event of another day, unknown to the stored document. *)
Definition retail_sales : Event :=
  mkEvent "d2ffccbd404549af" "2024-01-20" "21:30" "Retail Sales" "High"
          (Some "0.4%") None (Some "0.3%") "upcoming" false false.

(** An event whose display time is not a time of day. *)
Definition holiday : Event :=
  mkEvent "70d09ed6769734e6" "2024-01-15" "All Day" "Bank Holiday" "High"
          None (Some "1") None "completed" false false.

(** Two entries with one id, as two speeches of the same day give, the
    first already warned about and the second not. *)
Definition speech_morning : Event :=
  mkEvent "ba37cd4e569ea0fb" "2024-01-15" "10:00" "Fed Chair Powell Speaks" "High"
          None None None "upcoming" true false.

Definition speech_evening : Event :=
  mkEvent "ba37cd4e569ea0fb" "2024-01-15" "23:00" "Fed Chair Powell Speaks" "High"
          None None None "upcoming" false false.

Definition speech_fetched : Event :=
  mkEvent "ba37cd4e569ea0fb" "2024-01-15" "10:00" "Fed Chair Powell Speaks" "High"
          None None None "upcoming" false false.

(** A released event of medium impact. *)
Definition pmi_released : Event :=
  mkEvent "5f47f46d6cf1825d" "2024-01-15" "22:45" "S&P Global Services PMI" "Medium"
          (Some "51.3") (Some "51.4") (Some "50.8") "completed" false false.

(** A release quoted in thousands with a decimal point. *)
Definition job_cuts : Event :=
  mkEvent "79eaf58365d79ea3" "2024-01-15" "20:30" "Challenger Job Cuts" "High"
          (Some "35.5K") (Some "38.7K") (Some "34.8K") "completed" false false.

(** The rows of the provider for the events above. *)
Definition cpi_row : RawRow :=
  mkRawRow "2024/01/15 21:30:00" (Some "USD") (Some "bull3") (Some "CPI m/m")
           (Some "21:30") (Some "0.3%") (Some "") (Some "0.2%").

Definition retail_sales_row : RawRow :=
  mkRawRow "2024/01/20 21:30:00" (Some "USD") (Some "bull3") (Some "Retail Sales")
           (Some "21:30") (Some "0.4%") (Some "") (Some "0.3%").

Definition speech_morning_row : RawRow :=
  mkRawRow "2024/01/15 10:00:00" (Some "USD") (Some "bull3")
           (Some "Fed Chair Powell Speaks") (Some "10:00")
           (Some "") (Some "") (Some "").

Definition speech_evening_row : RawRow :=
  mkRawRow "2024/01/15 23:00:00" (Some "USD") (Some "bull3")
           (Some "Fed Chair Powell Speaks") (Some "23:00")
           (Some "") (Some "") (Some "").

(** Rows at the two ends of the window of a fetch at 15:30 on 2024-01-15:
    at that instant and 28 days later; the second has no time cell. *)
Definition window_start_row : RawRow :=
  mkRawRow "2024/01/15 15:30:00" (Some "USD") (Some "bull2")
           (Some "Empire State  Manufacturing Index") (Some "15:30")
           (Some "-5.0") (Some "") (Some "-14.5").

Definition window_end_row : RawRow :=
  mkRawRow "2024/02/12 15:30:00" (Some "USD") (Some "bull3")
           (Some "Federal Budget Balance") None
           (Some "") (Some "") (Some "").

(** A row whose name holds a no-break space (U+00A0, the bytes 194 160). *)
Definition core_cpi_row : RawRow :=
  mkRawRow "2024/01/15 21:30:00" (Some "USD") (Some "bull3")
           (Some ("Core" +:+ String "194" (String "160" "CPI (MoM)")))
           (Some "21:30") (Some "0.3%") (Some "") (Some "0.3%").

(** A run at the given hour and minute of 2024-01-15 in which the provider
    answers with [rows], every delivery succeeds and the write goes through. *)
Definition run_at (hh mi : Z) (rows : list RawRow) : Run :=
  let now := Datetime.make 2024 1 15 hh mi 0 in
  mkRun "bot-token" "chat-id" (Markup rows) now now "2024-01-15T00:00:00"
        (λ _ _, true) Written.

(** A run in which the request to the provider fails. *)
Definition failed_run : Run :=
  let now := Datetime.make 2024 1 15 16 0 0 in
  mkRun "bot-token" "chat-id" RequestFailed now now "2024-01-15T08:00:00"
        (λ _ _, true) Written.

(** The same day with every delivery failing in the first run. *)
Definition run_undelivered (hh mi : Z) (rows : list RawRow) : Run :=
  let now := Datetime.make 2024 1 15 hh mi 0 in
  mkRun "bot-token" "chat-id" (Markup rows) now now "2024-01-15T00:00:00"
        (λ _ _, false) Written.

End Scenario.

(** * Properties *)

(** ** The library models on known values *)

Example md5_empty : MD5.hexdigest "" = "d41d8cd98f00b204e9800998ecf8427e"%string.
Proof. vm_compute. reflexivity. Qed.

Example md5_abc : MD5.hexdigest "abc" = "900150983cd24fb0d6963f7d28e17f72"%string.
Proof. vm_compute. reflexivity. Qed.

Example md5_two_blocks :
  MD5.hexdigest "aaaaaaaaaaaaaaaaaaaaaaaaaaaaaaaaaaaaaaaaaaaaaaaaaaaaaaaaaaaaaaaaaaaaaa"
  = "0f5c6c4e740bfcc08c3c26ccb2673d46"%string.
Proof. vm_compute. reflexivity. Qed.

Example replace_K : Py.replace "K" "000" "216K" = "216000"%string.
Proof. reflexivity. Qed.

Example split_join :
  Py.join " " (Py.split "  Core   CPI (MoM)  ") = "Core CPI (MoM)"%string.
Proof. reflexivity. Qed.

Example format_1f_third :
  Py.format_1f true (100 # 3) = "+33.3"%string /\
  Py.format_1f false (6 # 1) = "6.0"%string /\
  Py.format_1f true (- (1 # 4)) = "-0.2"%string.
Proof. vm_compute. repeat split. Qed.

Example strptime_strict_ok :
  Datetime.strptime_strict "2024-01-15 21:30" "%Y-%m-%d %H:%M"
  = Some (Datetime.make 2024 1 15 21 30 0).
Proof. reflexivity. Qed.

Example strptime_strict_all_day :
  Datetime.strptime_strict "2024-01-15 All Day" "%Y-%m-%d %H:%M" = None.
Proof. reflexivity. Qed.

Example strftime_roundtrip :
  Datetime.strftime_date (Datetime.make 2024 2 29 23 59 59) = "2024-02-29"%string /\
  Datetime.strftime_hm (Datetime.make 2024 2 29 23 59 59) = "23:59"%string /\
  Datetime.strptime_strict "2023/02/29 10:00:00" "%Y/%m/%d %H:%M:%S" = None.
Proof. vm_compute. repeat split. Qed.


(** ** The dictionary of prior events *)

Section OldEventsMap.

Implicit Types (old_events before after : list Event) (event o : Event).

Lemma old_events_map_snoc old_events event :
  old_events_map (old_events ++ [event])
  = <[id event := event]> (old_events_map old_events).
Proof. unfold old_events_map. by rewrite foldl_app. Qed.

Lemma not_elem_of_ids_singleton i event :
  i ∉ id <$> [event] ↔ id event ≠ i.
Proof. cbn. rewrite list_elem_of_singleton. split; congruence. Qed.

(** The entry found under an id is the last one of the list with that id. *)
Lemma old_events_map_last before o after :
  id o ∉ id <$> after →
  old_events_map (before ++ o :: after) !! id o = Some o.
Proof.
  induction after as [|x after IH] using rev_ind; intros Hlast.
  - rewrite (old_events_map_snoc before o). apply lookup_insert_eq.
  - rewrite fmap_app, not_elem_of_app in Hlast. destruct Hlast as [Hafter Hx].
    replace (before ++ o :: after ++ [x]) with ((before ++ o :: after) ++ [x])
      by (by rewrite <- app_assoc).
    rewrite old_events_map_snoc, lookup_insert_ne; [by apply IH|].
    by apply not_elem_of_ids_singleton.
Qed.

Lemma old_events_map_Some old_events i o :
  old_events_map old_events !! i = Some o →
  ∃ before after,
    old_events = before ++ o :: after ∧ id o = i ∧ i ∉ id <$> after.
Proof.
  induction old_events as [|x l IH] using rev_ind; intros Hlook.
  - unfold old_events_map in Hlook. simpl in Hlook.
    by rewrite lookup_empty in Hlook.
  - rewrite old_events_map_snoc in Hlook.
    destruct (decide (id x = i)) as [Heq|Hne].
    + rewrite Heq, lookup_insert_eq in Hlook. injection Hlook as ->.
      exists l, []. split_and!; [done|done|apply not_elem_of_nil].
    + rewrite lookup_insert_ne in Hlook by done.
      destruct (IH Hlook) as (before & after & -> & Hid & Hafter).
      exists before, (after ++ [x]). split_and!.
      * by rewrite <- app_assoc.
      * done.
      * rewrite fmap_app, not_elem_of_app.
        split; [done|by apply not_elem_of_ids_singleton].
Qed.

Lemma old_events_map_None old_events i :
  old_events_map old_events !! i = None ↔ i ∉ id <$> old_events.
Proof.
  induction old_events as [|x l IH] using rev_ind.
  - split; [intros _; apply not_elem_of_nil|]. intros _. apply lookup_empty.
  - rewrite old_events_map_snoc, fmap_app, not_elem_of_app,
      not_elem_of_ids_singleton.
    destruct (decide (id x = i)) as [Heq|Hne].
    + rewrite Heq, lookup_insert_eq. split; [done|]. by intros [_ Hx].
    + rewrite lookup_insert_ne by done. rewrite IH. tauto.
Qed.

(** When the ids of the list are pairwise distinct, every entry is found
    under its id. *)
Lemma old_events_map_NoDup old_events o :
  NoDup (id <$> old_events) → o ∈ old_events →
  old_events_map old_events !! id o = Some o.
Proof.
  intros Hnd Hin. apply list_elem_of_split in Hin as (before & after & ->).
  apply old_events_map_last.
  rewrite fmap_app, fmap_cons in Hnd.
  apply NoDup_app in Hnd as (_ & _ & Hnd). by apply NoDup_cons in Hnd as [? _].
Qed.

End OldEventsMap.

(** ** [merge_with_existing] *)

Section Merge.

Implicit Types (new_events : list Event) (old_data : CalendarData).
Implicit Types (m : gmap string Event).

Lemma merge_event_fetched_fields m new_event :
  same_fetched_fields new_event (merge_event m new_event).
Proof.
  unfold merge_event. destruct (m !! id new_event) as [old_event|];
    [|by repeat split].
  cbn. by destruct (_ && _); repeat split.
Qed.

Lemma merge_event_id m new_event : id (merge_event m new_event) = id new_event.
Proof. by destruct (merge_event_fetched_fields m new_event) as [<- _]. Qed.

Lemma merge_event_unseen m new_event :
  m !! id new_event = None → merge_event m new_event = new_event.
Proof. unfold merge_event. by intros ->. Qed.

Lemma merge_event_flags m new_event old_event :
  m !! id new_event = Some old_event →
  notification_sent_12h (merge_event m new_event)
  = notification_sent_12h old_event
  ∧ notification_sent_release (merge_event m new_event)
    = notification_sent_release old_event.
Proof. unfold merge_event. intros ->. cbn. by destruct (_ && _). Qed.

(** The status is the fetched one, or it is forced to completed; the
    status of the prior entry is not read. *)
Lemma merge_event_status m new_event :
  status (merge_event m new_event) = status new_event
  ∨ status (merge_event m new_event) = "completed"%string
    ∧ Py.truthy (actual new_event) = true.
Proof.
  unfold merge_event. destruct (m !! id new_event) as [old_event|]; [|by left].
  cbn. destruct (Py.truthy (actual new_event)); cbn; [|by left].
  destruct (negb _); cbn; [by right|by left].
Qed.

Lemma merge_with_existing_ids new_events old_data :
  id <$> merge_with_existing new_events old_data = id <$> new_events.
Proof.
  unfold merge_with_existing. rewrite <- list_fmap_compose.
  apply list_fmap_ext. intros _ e _. apply merge_event_id.
Qed.

Lemma elem_of_merge_with_existing new_events old_data merged_event :
  merged_event ∈ merge_with_existing new_events old_data ↔
  ∃ new_event, new_event ∈ new_events ∧
    merged_event = merge_event (old_events_map (events old_data)) new_event.
Proof.
  unfold merge_with_existing. rewrite list_elem_of_fmap.
  split; intros (new_event & H1 & H2); by exists new_event.
Qed.

(** C4. The merged list is the new list, event by event: same ids in the
    same order and multiplicity, the fetched fields untouched; an event
    whose id is in the prior batch gets the flags of a prior entry with that
    id (and its own status or a forced completed), an event with an unseen
    id is passed through unchanged, and no id that is only in the prior
    batch appears in the result. *)
Theorem merge_with_existing_exactly_new_events new_events old_data :
  let merged_events := merge_with_existing new_events old_data in
  id <$> merged_events = id <$> new_events
  ∧ (∀ k new_event, new_events !! k = Some new_event →
       ∃ merged_event,
         merged_events !! k = Some merged_event
         ∧ same_fetched_fields new_event merged_event
         ∧ (status merged_event = status new_event
            ∨ status merged_event = "completed"%string)
         ∧ ((∃ old_event,
               old_event ∈ events old_data ∧ id old_event = id new_event
               ∧ notification_sent_12h merged_event
                 = notification_sent_12h old_event
               ∧ notification_sent_release merged_event
                 = notification_sent_release old_event)
            ∨ ((id new_event ∉ id <$> events old_data)
               ∧ merged_event = new_event)))
  ∧ (∀ old_event merged_event,
       old_event ∈ events old_data → id old_event ∉ id <$> new_events →
       merged_event ∈ merged_events → id merged_event ≠ id old_event).
Proof.
  cbn zeta. split_and!.
  - apply merge_with_existing_ids.
  - intros k new_event Hk.
    exists (merge_event (old_events_map (events old_data)) new_event).
    split_and!.
    + unfold merge_with_existing. by rewrite list_lookup_fmap, Hk.
    + apply merge_event_fetched_fields.
    + destruct (merge_event_status (old_events_map (events old_data)) new_event)
        as [?|[? _]]; auto.
    + destruct (old_events_map (events old_data) !! id new_event)
        as [old_event|] eqn:Hlook.
      * left. exists old_event.
        destruct (old_events_map_Some _ _ _ Hlook) as (before & after & Hold & Hid & _).
        destruct (merge_event_flags _ _ _ Hlook) as [H12 Hrel].
        split_and!; [|done..].
        rewrite Hold. apply elem_of_app. right. apply list_elem_of_here.
      * right. split; [by apply old_events_map_None|by apply merge_event_unseen].
  - intros old_event merged_event _ Hnot Hin Heq. apply Hnot.
    rewrite <- Heq, <- (merge_with_existing_ids new_events old_data).
    by apply list_elem_of_fmap_2.
Qed.

(** X1. Flags are carried from the entry that the dictionary keeps. When the
    last entry of the prior batch with a given id (its only entry when the
    ids of the prior batch are distinct) has a notification flag set, every
    merged event with that id has the flag set, whatever the new fetch says
    about the event. *)
Theorem merge_keeps_flags_of_last_prior_entry
    new_events old_data before old_event after merged_event :
  events old_data = before ++ old_event :: after →
  id old_event ∉ id <$> after →
  merged_event ∈ merge_with_existing new_events old_data →
  id merged_event = id old_event →
  (notification_sent_12h old_event = true →
   notification_sent_12h merged_event = true)
  ∧ (notification_sent_release old_event = true →
     notification_sent_release merged_event = true).
Proof.
  intros Hold Hlast Hin Hid.
  apply elem_of_merge_with_existing in Hin as (new_event & _ & ->).
  rewrite merge_event_id in Hid.
  pose proof (old_events_map_last before old_event after Hlast) as Hlook.
  rewrite <- Hold, <- Hid in Hlook.
  destruct (merge_event_flags _ _ _ Hlook) as [-> ->]. done.
Qed.

(** Changing the entries of the prior batch without touching their ids
    changes the dictionary entry by entry. *)
Lemma old_events_map_fmap (f : Event → Event) old_events :
  (∀ o, id (f o) = id o) →
  old_events_map (f <$> old_events) = f <$> old_events_map old_events.
Proof.
  intros Hid. induction old_events as [|x l IH] using rev_ind.
  - unfold old_events_map. cbn [fmap list_fmap foldl]. by rewrite fmap_empty.
  - by rewrite fmap_app, (old_events_map_snoc (f <$> l) (f x)),
      old_events_map_snoc, IH, fmap_insert, Hid.
Qed.

(** The merge reads the flags and the actual value of a prior entry, and
    nothing else of it. *)
Lemma merge_event_prior_status m (restatus : Event → string) new_event :
  merge_event ((λ o, set_status (restatus o) o) <$> m) new_event
  = merge_event m new_event.
Proof.
  unfold merge_event. rewrite lookup_fmap.
  by destruct (m !! id new_event) as [old_event|].
Qed.

(** The status of a merged event whose id has a prior entry. *)
Lemma merge_event_status_seen m new_event old_event :
  m !! id new_event = Some old_event →
  status (merge_event m new_event)
  = if Py.truthy (actual new_event) && negb (Py.truthy (actual old_event))
    then "completed"%string else status new_event.
Proof.
  unfold merge_event. intros ->.
  cbn [actual set_notification_sent_12h set_notification_sent_release].
  by destruct (_ && _).
Qed.

(** C3, as the code has it. The merged event at a position has the id of
    the new event at that position, and its status is decided by the new
    event and by the actual values: with a prior entry for the id it is
    completed when the new event has an actual value and the prior entry
    (the last of the prior batch with that id) has none, and the status of
    the new event otherwise; without a prior entry it is the status of the
    new event. So a new event that is completed stays completed, and a new
    event without an actual value keeps its status whatever the prior batch
    says. The status recorded in the prior batch is not read: changing the
    statuses of the prior entries changes nothing in the merged list. *)
Theorem merge_status_follows_new_fetch new_events old_data k new_event :
  new_events !! k = Some new_event →
  ∃ merged_event,
    merge_with_existing new_events old_data !! k = Some merged_event
    ∧ id merged_event = id new_event
    ∧ (∀ before old_event after,
         events old_data = before ++ old_event :: after →
         id old_event = id new_event → id old_event ∉ id <$> after →
         status merged_event
         = if Py.truthy (actual new_event)
              && negb (Py.truthy (actual old_event))
           then "completed"%string else status new_event)
    ∧ (id new_event ∉ id <$> events old_data →
       status merged_event = status new_event)
    ∧ (status new_event = "completed"%string →
       status merged_event = "completed"%string)
    ∧ (Py.truthy (actual new_event) = false →
       status merged_event = status new_event)
    ∧ ∀ restatus : Event → string,
        merge_with_existing new_events
          (mkCalendarData (updated_at old_data)
             ((λ old_event, set_status (restatus old_event) old_event)
                <$> events old_data))
        = merge_with_existing new_events old_data.
Proof.
  intros Hk.
  exists (merge_event (old_events_map (events old_data)) new_event).
  split_and!.
  - unfold merge_with_existing. by rewrite list_lookup_fmap, Hk.
  - apply merge_event_id.
  - intros before old_event after Hold Hid Hlast.
    apply merge_event_status_seen.
    rewrite Hold, <- Hid. by apply old_events_map_last.
  - intros Hunseen%old_events_map_None. by rewrite merge_event_unseen.
  - intros Hnew.
    destruct (merge_event_status (old_events_map (events old_data)) new_event)
      as [->|[? _]]; done.
  - intros Hactual.
    destruct (merge_event_status (old_events_map (events old_data)) new_event)
      as [?|[_ ?]]; [done|congruence].
  - intros restatus. unfold merge_with_existing. cbn [events].
    rewrite old_events_map_fmap by done.
    apply list_fmap_ext. intros _ e _. apply merge_event_prior_status.
Qed.


End Merge.

(** C4 on a document that knows the CPI event but not the retail sales. *)
Lemma merge_with_existing_exactly_new_events_witness :
  id <$> merge_with_existing [Scenario.cpi_upcoming; Scenario.retail_sales]
           (mkCalendarData None [Scenario.cpi_warned])
  = [id Scenario.cpi_upcoming; id Scenario.retail_sales].
Proof.
  apply (merge_with_existing_exactly_new_events
           [Scenario.cpi_upcoming; Scenario.retail_sales]
           (mkCalendarData None [Scenario.cpi_warned])).
Defined.

(** X1 on a fetch that brings the actual value of an event already warned
    about. *)
Lemma merge_keeps_flags_of_last_prior_entry_witness :
  let old_data := mkCalendarData None [Scenario.retail_sales; Scenario.cpi_warned] in
  let merged_event :=
    set_notification_sent_release false Scenario.cpi_released in
  (events old_data = [Scenario.retail_sales] ++ Scenario.cpi_warned :: []
   ∧ (id Scenario.cpi_warned ∉ id <$> [])
   ∧ merged_event ∈ merge_with_existing [Scenario.cpi_released] old_data
   ∧ id merged_event = id Scenario.cpi_warned)
  ∧ (notification_sent_12h Scenario.cpi_warned = true →
     notification_sent_12h merged_event = true).
Proof.
  cbn zeta.
  assert (set_notification_sent_release false Scenario.cpi_released
          ∈ merge_with_existing [Scenario.cpi_released]
              (mkCalendarData None [Scenario.retail_sales; Scenario.cpi_warned]))
    as Hin by (vm_compute; apply list_elem_of_here).
  split; [split_and!; [reflexivity|apply not_elem_of_nil|exact Hin|reflexivity]|].
  apply (merge_keeps_flags_of_last_prior_entry
           [Scenario.cpi_released]
           (mkCalendarData None [Scenario.retail_sales; Scenario.cpi_warned])
           [Scenario.retail_sales] Scenario.cpi_warned []
           (set_notification_sent_release false Scenario.cpi_released)
           eq_refl (not_elem_of_nil _) Hin eq_refl).
Defined.

(** C3 on a fetch that brings the actual value of the CPI release, over a
    prior batch that holds it as upcoming and already warned about. *)
Lemma merge_status_follows_new_fetch_witness :
  let new_event := set_status "upcoming" Scenario.cpi_released in
  let old_data := mkCalendarData None [Scenario.cpi_warned] in
  [new_event] !! 0%nat = Some new_event
  ∧ ∃ merged_event,
      merge_with_existing [new_event] old_data !! 0%nat = Some merged_event
      ∧ id merged_event = id new_event
      ∧ status new_event = "upcoming"%string
      ∧ status merged_event = "completed"%string.
Proof.
  cbn zeta.
  destruct (merge_status_follows_new_fetch
              [set_status "upcoming" Scenario.cpi_released]
              (mkCalendarData None [Scenario.cpi_warned])
              0%nat (set_status "upcoming" Scenario.cpi_released) eq_refl)
    as (merged_event & Hk & Hid & Hforced & _).
  split; [reflexivity|]. exists merged_event. split_and!; [done..|reflexivity|].
  by rewrite (Hforced [] Scenario.cpi_warned [] eq_refl eq_refl
                (not_elem_of_nil _)).
Defined.

(** C3 fails when the new fetch reports as upcoming an event that the prior
    batch records as completed: the merged event is upcoming. *)
Lemma merge_status_regresses_to_upcoming :
  let old_data := mkCalendarData None [Scenario.cpi_released] in
  Scenario.cpi_released ∈ events old_data
  ∧ status Scenario.cpi_released = "completed"%string
  ∧ id Scenario.cpi_upcoming = id Scenario.cpi_released
  ∧ merge_with_existing [Scenario.cpi_upcoming] old_data
    = [set_notification_sent_release true Scenario.cpi_warned]
  ∧ status (set_notification_sent_release true Scenario.cpi_warned)
    = "upcoming"%string.
Proof.
  cbn zeta. split_and!; [apply list_elem_of_here|reflexivity..| |reflexivity].
  vm_compute. reflexivity.
Qed.

(** ** [check_and_send_notifications] *)

Lemma elem_of_concat {A} (x : A) (ls : list (list A)) :
  x ∈ concat ls ↔ ∃ l, x ∈ l ∧ l ∈ ls.
Proof.
  induction ls as [|l0 ls IH]; cbn.
  - split; [intros H|intros (l & _ & H)]; by apply elem_of_nil in H.
  - rewrite elem_of_app, IH. split.
    + intros [H|(l & H1 & H2)].
      * exists l0. split; [done|apply list_elem_of_here].
      * exists l. split; [done|by apply list_elem_of_further].
    + intros (l & H1 & H2). apply elem_of_cons in H2 as [->|H2]; [by left|].
      right. by exists l.
Qed.

(** The calls of a trigger for an id within a log. *)

Lemma fired_app t i (log1 log2 : list Attempt) :
  fired t i (log1 ++ log2) = fired t i log1 ++ fired t i log2.
Proof. apply filter_app. Qed.

Lemma elem_of_fired t i (log : list Attempt) a :
  a ∈ fired t i log ↔
  a ∈ log ∧ attempt_trigger a = t ∧ id (attempt_event a) = i.
Proof. unfold fired. rewrite list_elem_of_filter. tauto. Qed.

Lemma fired_nil t i (log : list Attempt) :
  (∀ a, a ∈ log → attempt_trigger a = t → id (attempt_event a) ≠ i) →
  fired t i log = [].
Proof.
  intros Hnone. destruct (fired t i log) as [|a l] eqn:Hfired; [done|].
  assert (a ∈ fired t i log) as Hin by (rewrite Hfired; apply list_elem_of_here).
  apply elem_of_fired in Hin as (Hin & Ht & Hi). by destruct (Hnone a Hin Ht).
Qed.


Section Evaluator.

Variable strptime : string → string → option Datetime.datetime.
Variable float : string → option Q.
Variable self : EconomicCalendarFetcher.
Variable requests_post : nat → string → bool.
Variable now : Datetime.datetime.

Implicit Types (event : Event) (calls log : list Attempt) (a : Attempt).

(** The loop body, the loop and the method on the variables above. *)
Local Abbreviation body := (check_event strptime float self requests_post now).
Local Abbreviation loop := (check_loop strptime float self requests_post now).
Local Abbreviation check_all :=
  (check_and_send_notifications strptime float self requests_post now).

(** The scheduled instant of an event, when its date and time parse. *)
Local Abbreviation scheduled event :=
  (strptime (date event +:+ " " +:+ time event) "%Y-%m-%d %H:%M").

Lemma trigger_a_due_spec hours_until event :
  trigger_a_due hours_until event = true ↔
  impact event = "High"%string ∧ notification_sent_12h event = false
  ∧ (0 <= hours_until)%Q ∧ (hours_until <= 12)%Q.
Proof.
  unfold trigger_a_due.
  rewrite !andb_true_iff, !Qle_bool_iff, negb_true_iff, String.eqb_eq. tauto.
Qed.

Lemma trigger_b_due_spec event :
  trigger_b_due event = true ↔
  impact event = "High"%string ∧ status event = "completed"%string
  ∧ Py.truthy (actual event) = true ∧ notification_sent_release event = false.
Proof.
  unfold trigger_b_due.
  rewrite !andb_true_iff, negb_true_iff, !String.eqb_eq. tauto.
Qed.

(** The five ways through the loop body. *)
Ltac check_event_cases :=
  unfold check_event;
  destruct (trigger_a_due _ _) eqn:Ha;
    [destruct (send_telegram_notification _ _ _ (format_warning_message _ _ _))
       eqn:Hoka|];
    (destruct (trigger_b_due _) eqn:Hb;
       [destruct (send_telegram_notification _ _ _ (format_release_message _ _ _))
          eqn:Hokb|]);
    cbn in *.

Lemma check_event_unparsed k event :
  scheduled event = None → body k event = (event, []).
Proof. unfold check_event. by intros ->. Qed.

(** Membership in the short lists of calls that the loop body builds. *)
Ltac calls_cases :=
  repeat match goal with
    | H : _ ∈ [] |- _ => by apply elem_of_nil in H
    | H : _ ∈ _ :: _ |- _ => apply elem_of_cons in H as [->|H]
    | H : (_, _) = (_, _) |- _ => injection H as <- <-
    end.

Lemma body_fetched_fields k event event' calls :
  body k event = (event', calls) →
  same_fetched_fields event event' ∧ status event' = status event
  ∧ ∀ a, a ∈ calls → same_fetched_fields event (attempt_event a).
Proof.
  unfold check_event. destruct (scheduled event) as [event_datetime|].
  - check_event_cases; intros Heq; calls_cases;
      (split_and!; [by repeat split|done|]); intros a Hin; calls_cases;
      by repeat split.
  - intros Heq. calls_cases. split_and!; [by repeat split|done|].
    intros a Hin. calls_cases.
Qed.

Lemma body_id k event event' calls a :
  body k event = (event', calls) → a ∈ calls →
  id (attempt_event a) = id event.
Proof.
  intros Heq Hin. apply body_fetched_fields in Heq as (_ & _ & Hcalls).
  by destruct (Hcalls a Hin) as [<- _].
Qed.


(** A set flag stays set and silences its trigger. *)
Lemma body_flag_set t k event event' calls :
  body k event = (event', calls) → flag t event = true →
  flag t event' = true ∧ ∀ a, a ∈ calls → attempt_trigger a ≠ t.
Proof.
  unfold check_event. destruct (scheduled event) as [event_datetime|].
  - destruct t; cbn; intros Heq Hflag; revert Heq;
      unfold trigger_a_due, trigger_b_due; cbn; rewrite ?Hflag, ?andb_false_r; cbn.
    + destruct (_ && _ && _ && _) eqn:Hb;
        [destruct (send_telegram_notification _ _ _ _)|];
        intros Heq; calls_cases; (split; [done|]); intros a Hin; by calls_cases.
    + destruct (_ && _ && _ && _) eqn:Ha;
        [destruct (send_telegram_notification _ _ _ _)|]; cbn;
        rewrite ?Hflag, ?andb_false_r; cbn;
        intros Heq; calls_cases; (split; [done|]); intros a Hin; by calls_cases.
  - intros Heq Hflag. calls_cases. split; [done|]. intros a Hin. calls_cases.
Qed.

(** After a call of a trigger the flag tells whether the call went through:
    set on success, still clear on failure. *)
Lemma body_flag_after_call t k event event' calls a :
  body k event = (event', calls) → a ∈ calls → attempt_trigger a = t →
  flag t event' = attempt_ok a.
Proof.
  unfold check_event. destruct (scheduled event) as [event_datetime|].
  - destruct t; check_event_cases; intros Heq Hin Ht; calls_cases;
      try done; cbn in *;
      repeat match goal with
        | H : trigger_a_due _ _ = true |- _ =>
            apply trigger_a_due_spec in H as (_ & H & _)
        | H : trigger_b_due _ = true |- _ =>
            apply trigger_b_due_spec in H as (_ & _ & _ & H)
        end; done.
  - intros Heq Hin. calls_cases.
Qed.

(** Without a call of a trigger its flag is as before. *)
Lemma body_flag_without_call t k event event' calls :
  body k event = (event', calls) →
  (∀ a, a ∈ calls → attempt_trigger a ≠ t) →
  flag t event' = flag t event.
Proof.
  unfold check_event. destruct (scheduled event) as [event_datetime|].
  - destruct t; check_event_cases; intros Heq Hnone; calls_cases; try done;
      exfalso;
      match goal with
      | H : ∀ a, a ∈ ?l → attempt_trigger a ≠ ?t |- _ =>
          match l with
          | context [mkAttempt t ?e ?m ?ok] =>
              apply (H (mkAttempt t e m ok)); [|done];
              repeat first [apply list_elem_of_here | apply list_elem_of_further]
          end
      end.
  - intros Heq _. by calls_cases.
Qed.

Lemma body_trigger_a_iff k event event' calls event_datetime :
  scheduled event = Some event_datetime →
  body k event = (event', calls) →
  (∃ a, a ∈ calls ∧ attempt_trigger a = TriggerA) ↔
  trigger_a_due (Datetime.hours (event_datetime - now)) event = true.
Proof.
  unfold check_event. intros ->.
  check_event_cases; intros Heq; calls_cases; split; try done;
    try (intros _; eexists; split; [apply list_elem_of_here|done]);
    intros (a & Hin & Ht); by calls_cases.
Qed.

Lemma body_trigger_a_event k event event' calls a :
  body k event = (event', calls) → a ∈ calls → attempt_trigger a = TriggerA →
  attempt_event a = event.
Proof.
  unfold check_event. destruct (scheduled event) as [event_datetime|].
  - check_event_cases; intros Heq Hin Ht; by calls_cases.
  - intros Heq Hin. calls_cases.
Qed.

(** *** The loop *)

Lemma loop_app events1 events2 updated_events log :
  loop (events1 ++ events2) updated_events log
  = let '(updated_events', log') := loop events1 updated_events log in
    loop events2 updated_events' log'.
Proof.
  revert updated_events log.
  induction events1 as [|event events1 IH]; intros updated_events log; cbn.
  - done.
  - destruct (body (length log) event) as [event' calls]. apply IH.
Qed.

(** The loop appends to its accumulators the results of the body on the
    events, in order. *)
Lemma loop_spec events updated_events log :
  ∃ results,
    Forall2 (λ event r, ∃ k, body k event = r) events results
    ∧ loop events updated_events log
      = (updated_events ++ results.*1, log ++ concat results.*2).
Proof.
  revert updated_events log.
  induction events as [|event events IH]; intros updated_events log; cbn.
  - exists []. split; [constructor|]. cbn. by rewrite !app_nil_r.
  - destruct (body (length log) event) as [event' calls] eqn:Hbody.
    destruct (IH (updated_events ++ [event']) (log ++ calls))
      as (results & Hall & ->).
    exists ((event', calls) :: results). split.
    + constructor; [by exists (length log)|done].
    + cbn. by rewrite <- !app_assoc.
Qed.

Lemma check_all_spec events :
  ∃ results,
    Forall2 (λ event r, ∃ k, body k event = r) events results
    ∧ check_all events = (results.*1, concat results.*2).
Proof.
  unfold check_and_send_notifications.
  destruct (loop_spec events [] []) as (results & Hall & ->). by exists results.
Qed.

Lemma check_all_length events :
  length (check_all events).1 = length events.
Proof.
  destruct (check_all_spec events) as (results & Hall & ->). cbn.
  rewrite length_fmap. symmetry. by eapply Forall2_length.
Qed.

(** One event of a run, seen between the events before it and after it. *)
Lemma check_all_zoom before event after :
  ∃ updated_after log_after,
    check_all (before ++ event :: after)
    = ((check_all before).1
         ++ (body (length (check_all before).2) event).1 :: updated_after,
       (check_all before).2
         ++ (body (length (check_all before).2) event).2 ++ log_after).
Proof.
  unfold check_and_send_notifications. rewrite loop_app.
  destruct (loop before [] []) as [updated_before log_before]. cbn.
  destruct (body (length log_before) event) as [event' calls]. cbn.
  destruct (loop_spec after (updated_before ++ [event']) (log_before ++ calls))
    as (results & _ & ->).
  exists results.*1, (concat results.*2). by rewrite <- !app_assoc.
Qed.

(** C5. In a run at the instant [now], an event whose date and time parse
    makes Trigger A call the sink exactly when its impact is High, its
    [notification_sent_12h] is false and it is between 0 and 12 hours ahead;
    the call is made for the event as it stands, and afterwards the flag is
    true if the call succeeded and false if it failed; without a call the
    flag is as it was. *)
Theorem trigger_a_fires_iff_due before event after event_datetime :
  strptime (date event +:+ " " +:+ time event) "%Y-%m-%d %H:%M"
  = Some event_datetime →
  let check :=
    check_and_send_notifications strptime float self requests_post now in
  let hours_until := Datetime.hours (event_datetime - now) in
  let updated_before := (check before).1 in
  let log_before := (check before).2 in
  ∃ event' calls updated_after log_after,
    check (before ++ event :: after)
    = (updated_before ++ event' :: updated_after,
       log_before ++ calls ++ log_after)
    ∧ length updated_before = length before
    ∧ check_event strptime float self requests_post now
        (length log_before) event = (event', calls)
    ∧ ((∃ a, a ∈ calls ∧ attempt_trigger a = TriggerA) ↔
       impact event = "High"%string ∧ notification_sent_12h event = false
       ∧ (0 <= hours_until)%Q ∧ (hours_until <= 12)%Q)
    ∧ (∀ a, a ∈ calls → attempt_trigger a = TriggerA →
         attempt_event a = event
         ∧ notification_sent_12h event' = attempt_ok a)
    ∧ ((∀ a, a ∈ calls → attempt_trigger a ≠ TriggerA) →
       notification_sent_12h event' = notification_sent_12h event).
Proof.
  intros Hparse check hours_until updated_before log_before.
  destruct (check_all_zoom before event after)
    as (updated_after & log_after & Hzoom).
  subst check updated_before log_before.
  destruct (body (length (check_all before).2) event)
    as [event' calls] eqn:Hbody.
  exists event', calls, updated_after, log_after.
  split_and!; [done|apply check_all_length|done| | |].
  - rewrite (body_trigger_a_iff _ _ _ _ _ Hparse Hbody).
    apply trigger_a_due_spec.
  - intros a Hin Ht. split.
    + by eapply body_trigger_a_event.
    + by apply (body_flag_after_call TriggerA _ _ _ _ _ Hbody).
  - apply (body_flag_without_call TriggerA _ _ _ _ Hbody).
Qed.

Lemma body_trigger_b k event event' calls event_datetime :
  scheduled event = Some event_datetime →
  body k event = (event', calls) →
  trigger_b_due event = true →
  ∃ a, a ∈ calls ∧ attempt_trigger a = TriggerB.
Proof.
  unfold check_event. intros ->.
  check_event_cases; intros Heq Hdue; calls_cases;
    try (unfold trigger_b_due in *; cbn in *; congruence);
    first
      [ eexists; split; [apply list_elem_of_here|reflexivity]
      | eexists; split;
        [apply list_elem_of_further, list_elem_of_here|reflexivity] ].
Qed.

Lemma body_trigger_b_iff k event event' calls event_datetime :
  scheduled event = Some event_datetime →
  body k event = (event', calls) →
  (∃ a, a ∈ calls ∧ attempt_trigger a = TriggerB) ↔
  trigger_b_due event = true.
Proof.
  intros Hparse Hbody. split; [|by eapply body_trigger_b].
  revert Hbody. unfold check_event. rewrite Hparse.
  check_event_cases; intros Heq (a & Hin & Ht); calls_cases; try done;
    unfold trigger_b_due in *; cbn in *; congruence.
Qed.

(** X2. Trigger B, in the same terms as C5: an event whose date and time parse
    makes Trigger B call the sink exactly when its impact is High, its status
    is completed, it has an actual value and its
    [notification_sent_release] is false; afterwards the flag tells whether
    the call succeeded, and without a call it is as it was. *)
Theorem trigger_b_fires_iff_due before event after event_datetime :
  strptime (date event +:+ " " +:+ time event) "%Y-%m-%d %H:%M"
  = Some event_datetime →
  let check :=
    check_and_send_notifications strptime float self requests_post now in
  let updated_before := (check before).1 in
  let log_before := (check before).2 in
  ∃ event' calls updated_after log_after,
    check (before ++ event :: after)
    = (updated_before ++ event' :: updated_after,
       log_before ++ calls ++ log_after)
    ∧ check_event strptime float self requests_post now
        (length log_before) event = (event', calls)
    ∧ ((∃ a, a ∈ calls ∧ attempt_trigger a = TriggerB) ↔
       impact event = "High"%string ∧ status event = "completed"%string
       ∧ Py.truthy (actual event) = true
       ∧ notification_sent_release event = false)
    ∧ (∀ a, a ∈ calls → attempt_trigger a = TriggerB →
         notification_sent_release event' = attempt_ok a)
    ∧ ((∀ a, a ∈ calls → attempt_trigger a ≠ TriggerB) →
       notification_sent_release event' = notification_sent_release event).
Proof.
  intros Hparse check updated_before log_before.
  destruct (check_all_zoom before event after)
    as (updated_after & log_after & Hzoom).
  subst check updated_before log_before.
  destruct (body (length (check_all before).2) event)
    as [event' calls] eqn:Hbody.
  exists event', calls, updated_after, log_after.
  split_and!; [done|done| | |].
  - rewrite (body_trigger_b_iff _ _ _ _ _ Hparse Hbody).
    apply trigger_b_due_spec.
  - intros a Hin Ht.
    by apply (body_flag_after_call TriggerB _ _ _ _ _ Hbody).
  - apply (body_flag_without_call TriggerB _ _ _ _ Hbody).
Qed.

(** X5. An event whose impact is not High makes no call and is appended
    as it is, whatever its date, time, status and flags. *)
Theorem other_impact_never_notifies k event :
  impact event ≠ "High"%string →
  check_event strptime float self requests_post now k event = (event, []).
Proof.
  intros Himpact%String.eqb_neq. unfold check_event.
  destruct (scheduled event) as [event_datetime|]; [|done].
  unfold trigger_a_due, trigger_b_due. rewrite Himpact, !andb_false_r. cbn.
  by rewrite ?Himpact, ?andb_false_r.
Qed.

(** C10. An event whose date and time do not parse is appended as it is, at
    its place, and no call is made for it: the run goes on with the events
    after it from the same log; in particular no call of the run is about an
    event with its fetched fields. *)
Theorem unparsed_event_is_skipped before event after :
  strptime (date event +:+ " " +:+ time event) "%Y-%m-%d %H:%M" = None →
  let check :=
    check_and_send_notifications strptime float self requests_post now in
  check (before ++ event :: after)
  = check_loop strptime float self requests_post now after
      ((check before).1 ++ [event]) (check before).2
  ∧ (check (before ++ event :: after)).1 !! length before = Some event
  ∧ ∀ a, a ∈ (check (before ++ event :: after)).2 →
         ¬ same_fetched_fields event (attempt_event a).
Proof.
  intros Hparse check. subst check.
  pose proof (check_all_length before) as Hlen.
  assert (check_all (before ++ event :: after)
          = loop after ((check_all before).1 ++ [event]) (check_all before).2)
    as Hrun.
  { unfold check_and_send_notifications in *. rewrite loop_app.
    destruct (loop before [] []) as [updated_before log_before].
    cbn [check_loop]. rewrite (check_event_unparsed _ _ Hparse).
    by rewrite app_nil_r. }
  split_and!; [done| |].
  - rewrite Hrun.
    destruct (loop_spec after ((check_all before).1 ++ [event])
                (check_all before).2) as (results & _ & ->). cbn.
    rewrite <- app_assoc, lookup_app_r by lia.
    by rewrite Hlen, Nat.sub_diag.
  - destruct (check_all_spec (before ++ event :: after))
      as (results & Hall & ->). cbn.
    intros a Hin (_ & Hdate & Htime & _).
    apply elem_of_concat in Hin as (calls & Hin & Hcalls).
    apply list_elem_of_fmap in Hcalls as ([e' calls'] & -> & Hr).
    apply list_elem_of_lookup in Hr as (j & Hj).
    destruct (Forall2_lookup_r _ _ _ _ _ Hall Hj) as (e & _ & k & Hbody).
    cbn in Hin.
    destruct (scheduled e) as [event_datetime|] eqn:He.
    + destruct (body_fetched_fields _ _ _ _ Hbody) as (_ & _ & Hcalls).
      destruct (Hcalls a Hin) as (_ & Hd & Ht & _).
      rewrite Hd, Ht, <- Hdate, <- Htime, Hparse in He. done.
    + rewrite (check_event_unparsed _ _ He) in Hbody.
      injection Hbody as <- <-. by apply elem_of_nil in Hin.
Qed.

(** *** Facts for sequences of runs *)

Lemma body_flag_true_inv t k event event' calls :
  body k event = (event', calls) → flag t event' = true →
  flag t event = true
  ∨ ∃ a, a ∈ calls ∧ attempt_trigger a = t ∧ attempt_ok a = true.
Proof.
  intros Hbody Hflag.
  destruct (decide (Exists (λ a, attempt_trigger a = t) calls)) as [Hex|Hnone].
  - right. apply Exists_exists in Hex as (a & Hin & Ht). exists a.
    split_and!; [done..|].
    by rewrite <- (body_flag_after_call t _ _ _ _ _ Hbody Hin Ht).
  - left. rewrite <- (body_flag_without_call t _ _ _ _ Hbody); [done|].
    intros a Hin Ht. apply Hnone, Exists_exists. by exists a.
Qed.


Lemma check_all_ids events : id <$> (check_all events).1 = id <$> events.
Proof.
  destruct (check_all_spec events) as (results & Hall & ->). cbn.
  induction Hall as [|event [event' calls] events results [k Hbody] _ IH];
    [done|]. cbn. rewrite IH. f_equal.
  by destruct (body_fetched_fields _ _ _ _ Hbody) as ([<- _] & _).
Qed.

(** Every call of a run is made by the body on one of the events, whose
    updated form is in the result. *)
Lemma check_all_call_origin events a :
  a ∈ (check_all events).2 →
  ∃ event event' calls k,
    event ∈ events ∧ body k event = (event', calls) ∧ a ∈ calls
    ∧ event' ∈ (check_all events).1.
Proof.
  destruct (check_all_spec events) as (results & Hall & ->). cbn.
  intros (calls & Hin & Hcalls)%elem_of_concat.
  apply list_elem_of_fmap in Hcalls as ([event' calls'] & -> & Hr).
  pose proof Hr as Hr'. apply list_elem_of_lookup in Hr as (j & Hj).
  destruct (Forall2_lookup_r _ _ _ _ _ Hall Hj) as (event & Hevent & k & Hbody).
  exists event, event', calls', k. split_and!; [|done..|].
  - by eapply list_elem_of_lookup_2.
  - by apply (list_elem_of_fmap_2 fst) in Hr'.
Qed.

(** Every updated event is the result of the body on one of the events,
    and its calls are in the log. *)
Lemma check_all_updated_origin events event' :
  event' ∈ (check_all events).1 →
  ∃ event calls k,
    event ∈ events ∧ body k event = (event', calls)
    ∧ ∀ a, a ∈ calls → a ∈ (check_all events).2.
Proof.
  destruct (check_all_spec events) as (results & Hall & ->). cbn.
  intros ([event'' calls] & -> & Hr)%list_elem_of_fmap.
  pose proof Hr as Hr'. apply list_elem_of_lookup in Hr as (j & Hj).
  destruct (Forall2_lookup_r _ _ _ _ _ Hall Hj) as (event & Hevent & k & Hbody).
  exists event, calls, k. split_and!; [|done|].
  - by eapply list_elem_of_lookup_2.
  - intros a Hin. apply elem_of_concat. exists calls. split; [done|].
    by apply (list_elem_of_fmap_2 snd) in Hr'.
Qed.

(** Every event is handled by the body, its result is in the updated list
    and its calls are in the log. *)
Lemma check_all_event_result events event :
  event ∈ events →
  ∃ event' calls k,
    body k event = (event', calls) ∧ event' ∈ (check_all events).1
    ∧ ∀ a, a ∈ calls → a ∈ (check_all events).2.
Proof.
  destruct (check_all_spec events) as (results & Hall & ->). cbn.
  intros (j & Hj)%list_elem_of_lookup.
  destruct (Forall2_lookup_l _ _ _ _ _ Hall Hj)
    as ([event' calls] & Hr & k & Hbody).
  apply list_elem_of_lookup_2 in Hr.
  exists event', calls, k. split_and!; [done| |].
  - by apply (list_elem_of_fmap_2 fst) in Hr.
  - intros a Hin. apply elem_of_concat. exists calls. split; [done|].
    by apply (list_elem_of_fmap_2 snd) in Hr.
Qed.



End Evaluator.

(** C5 on the CPI event six hours before its release. *)
Lemma trigger_a_fires_iff_due_witness :
  let now := Datetime.make 2024 1 15 15 30 0 in
  let run :=
    check_and_send_notifications Datetime.strptime_strict Py.float_decimal
      Scenario.fetcher (λ _ _, true) now in
  Datetime.strptime_strict
    (date Scenario.cpi_upcoming +:+ " " +:+ time Scenario.cpi_upcoming)
    "%Y-%m-%d %H:%M" = Some (Datetime.make 2024 1 15 21 30 0)
  ∧ ∃ a, a ∈ (run ([Scenario.retail_sales] ++ [Scenario.cpi_upcoming])).2
         ∧ attempt_trigger a = TriggerA
         ∧ attempt_event a = Scenario.cpi_upcoming.
Proof.
  cbn zeta. split; [reflexivity|].
  destruct (trigger_a_fires_iff_due Datetime.strptime_strict Py.float_decimal
              Scenario.fetcher (λ _ _, true) (Datetime.make 2024 1 15 15 30 0)
              [Scenario.retail_sales] Scenario.cpi_upcoming []
              (Datetime.make 2024 1 15 21 30 0) eq_refl)
    as (event' & calls & updated_after & log_after
        & -> & _ & _ & [_ Hdue] & Hcall & _).
  destruct Hdue as (a & Hin & Ht).
  { split_and!; [reflexivity|reflexivity|by vm_compute|by vm_compute]. }
  exists a. split_and!; [|done|by apply Hcall].
  cbn [snd]. apply elem_of_app. right. apply elem_of_app. by left.
Defined.

(** X2 on the released CPI, not yet announced. *)
Lemma trigger_b_fires_iff_due_witness :
  let now := Datetime.make 2024 1 15 22 0 0 in
  let run :=
    check_and_send_notifications Datetime.strptime_strict Py.float_decimal
      Scenario.fetcher (λ _ _, true) now in
  Datetime.strptime_strict
    (date Scenario.cpi_unannounced +:+ " " +:+ time Scenario.cpi_unannounced)
    "%Y-%m-%d %H:%M" = Some (Datetime.make 2024 1 15 21 30 0)
  ∧ ∃ a, a ∈ (run ([Scenario.retail_sales] ++ [Scenario.cpi_unannounced])).2
         ∧ attempt_trigger a = TriggerB.
Proof.
  cbn zeta. split; [reflexivity|].
  destruct (trigger_b_fires_iff_due Datetime.strptime_strict Py.float_decimal
              Scenario.fetcher (λ _ _, true) (Datetime.make 2024 1 15 22 0 0)
              [Scenario.retail_sales] Scenario.cpi_unannounced []
              (Datetime.make 2024 1 15 21 30 0) eq_refl)
    as (event' & calls & updated_after & log_after
        & -> & _ & [_ Hdue] & _).
  destruct Hdue as (a & Hin & Ht); [by repeat split|].
  exists a. split; [|done].
  cbn [snd]. apply elem_of_app. right. apply elem_of_app. by left.
Defined.

(** C10 on an all-day holiday between two timed events. *)
Lemma unparsed_event_is_skipped_witness :
  let now := Datetime.make 2024 1 15 15 30 0 in
  let run :=
    check_and_send_notifications Datetime.strptime_strict Py.float_decimal
      Scenario.fetcher (λ _ _, true) now in
  Datetime.strptime_strict
    (date Scenario.holiday +:+ " " +:+ time Scenario.holiday)
    "%Y-%m-%d %H:%M" = None
  ∧ (run ([Scenario.cpi_upcoming] ++ Scenario.holiday :: [Scenario.retail_sales])).1
      !! 1%nat = Some Scenario.holiday.
Proof.
  cbn zeta. split; [reflexivity|].
  apply (unparsed_event_is_skipped Datetime.strptime_strict Py.float_decimal
           Scenario.fetcher (λ _ _, true) (Datetime.make 2024 1 15 15 30 0)
           [Scenario.cpi_upcoming] Scenario.holiday [Scenario.retail_sales]
           eq_refl).
Defined.

(** X5 on a release of medium impact that is due on both counts. *)
Lemma other_impact_never_notifies_witness :
  impact Scenario.pmi_released ≠ "High"%string
  ∧ check_event Datetime.strptime_strict Py.float_decimal Scenario.fetcher
      (λ _ _, true) (Datetime.make 2024 1 15 15 30 0) 0 Scenario.pmi_released
    = (Scenario.pmi_released, []).
Proof.
  split; [done|].
  by apply (other_impact_never_notifies Datetime.strptime_strict
              Py.float_decimal Scenario.fetcher (λ _ _, true)
              (Datetime.make 2024 1 15 15 30 0) 0 Scenario.pmi_released).
Defined.

(** ** [main] and the stored file *)

Section Main.

Variable strptime : string → string → option Datetime.datetime.
Variable float : string → option Q.

(** C9. When the request to the provider fails, or its envelope carries no
    data, or no row survives the filters, [main] returns before the merge:
    the file is the one it found and no notification call is made. *)
Theorem failed_fetch_leaves_file_untouched run file :
  response run = RequestFailed ∨ response run = NoData ∨ batch strptime run = [] →
  main strptime float run file = (file, []).
Proof.
  intros Hfetch.
  assert (batch strptime run = []) as Hempty.
  { destruct Hfetch as [H|[H|H]]; [| |done];
      unfold batch, fetch_calendar_events; by rewrite H. }
  unfold main. unfold batch in Hempty. by rewrite Hempty.
Qed.

End Main.

(** C9 on a stored document and a request that fails. *)
Lemma failed_fetch_leaves_file_untouched_witness :
  let file := Document (mkCalendarData (Some "2024-01-14T08:00:00Z"%string)
                                       [Scenario.cpi_warned]) in
  (response Scenario.failed_run = RequestFailed
   ∨ response Scenario.failed_run = NoData
   ∨ batch Datetime.strptime_strict Scenario.failed_run = [])
  ∧ main Datetime.strptime_strict Py.float_decimal Scenario.failed_run file
    = (file, []).
Proof.
  cbn zeta. split; [by left|].
  apply (failed_fetch_leaves_file_untouched Datetime.strptime_strict
           Py.float_decimal Scenario.failed_run _ (or_introl eq_refl)).
Defined.

(** ** [generate_event_id] *)

Lemma le_bytes_length n x : length (MD5.le_bytes n x) = n.
Proof. unfold MD5.le_bytes. by rewrite length_map, length_seq. Qed.

Lemma digest_length msg : length (MD5.digest msg) = 16%nat.
Proof. unfold MD5.digest. cbn zeta. by rewrite !length_app, !le_bytes_length. Qed.

Lemma hex_length (bs : list Z) :
  length (concat (map MD5.hex_byte bs)) = (2 * length bs)%nat.
Proof. induction bs as [|b bs IH]; cbn; [done|]. rewrite IH. lia. Qed.

Lemma string_of_list_ascii_length (l : list ascii) :
  String.length (string_of_list_ascii l) = length l.
Proof. induction l as [|a l IH]; cbn; [done|]. by rewrite IH. Qed.

Lemma hexdigest_length s : String.length (MD5.hexdigest s) = 32%nat.
Proof.
  unfold MD5.hexdigest.
  by rewrite string_of_list_ascii_length, hex_length, digest_length.
Qed.

Lemma slice_to_length n s :
  String.length (Py.slice_to n s) = (n `min` String.length s)%nat.
Proof.
  revert s. induction n as [|n IH]; intros [|a s]; cbn; try done.
  by rewrite IH.
Qed.

Lemma generate_event_id_length self date name :
  String.length (generate_event_id self date name) = 16%nat.
Proof.
  unfold generate_event_id. by rewrite slice_to_length, hexdigest_length.
Qed.

Example generate_event_id_cpi :
  generate_event_id Scenario.fetcher "2024-01-15" "CPI m/m"
  = "7ddc1d0f6a926e88"%string.
Proof. vm_compute. reflexivity. Qed.

(** X4. Every fetched event carries the id of its own date and name, so
    that the rows of one event get one id in every run, whoever fetches them
    and whenever. *)
Theorem fetched_id_is_id_of_date_and_name strptime run event :
  event ∈ batch strptime run →
  id event = Py.slice_to 16 (MD5.hexdigest (date event +:+ "_" +:+ name event)).
Proof.
  unfold batch, fetch_calendar_events.
  destruct (response run) as [| |rows]; [by intros ?%elem_of_nil..|].
  intros (row & _ & Hrow)%list_elem_of_omap. revert Hrow.
  unfold normalize_row. intros Hrow. by repeat case_match; simplify_eq.
Qed.

(** X4 on the CPI row. *)
Lemma fetched_id_is_id_of_date_and_name_witness :
  let run :=
    Scenario.run_at 15 30 [Scenario.cpi_row; Scenario.retail_sales_row] in
  Scenario.cpi_upcoming ∈ batch Datetime.strptime_strict run
  ∧ id Scenario.cpi_upcoming
    = Py.slice_to 16 (MD5.hexdigest "2024-01-15_CPI m/m").
Proof.
  cbn zeta.
  assert (Scenario.cpi_upcoming
          ∈ batch Datetime.strptime_strict
              (Scenario.run_at 15 30
                 [Scenario.cpi_row; Scenario.retail_sales_row])) as Hin
    by (vm_compute; apply list_elem_of_here).
  split; [exact Hin|].
  exact (fetched_id_is_id_of_date_and_name Datetime.strptime_strict _ _ Hin).
Defined.

(** ** The deviation section of the release message *)

Section Deviation.

Variable float : string → option Q.

(** X3. The section is there exactly when both values are present, not
    empty, and accepted by [float] after the two replacements; no case
    raises. *)
Lemma deviation_values_present event :
  is_Some (deviation_values float event) ↔
  ∃ forecast_str actual_str,
    forecast event = Some forecast_str ∧ forecast_str ≠ ""%string
    ∧ actual event = Some actual_str ∧ actual_str ≠ ""%string
    ∧ is_Some (parse_value float forecast_str)
    ∧ is_Some (parse_value float actual_str).
Proof.
  unfold deviation_values, Py.truthy.
  destruct (forecast event) as [f|]; cbn;
    [|split; [intros [? [=]]|intros (? & ? & [=] & _)]].
  destruct (actual event) as [a|]; cbn;
    [|rewrite andb_false_r; split;
      [intros [? [=]]|intros (? & ? & _ & _ & [=] & _)]].
  destruct (String.eqb_spec f "") as [->|Hf]; cbn;
    [split; [intros [? [=]]|intros (? & ? & [= <-] & ? & _); done]|].
  destruct (String.eqb_spec a "") as [->|Ha]; cbn;
    [split; [intros [? [=]]|intros (? & ? & _ & _ & [= <-] & ? & _); done]|].
  destruct (parse_value float f) as [fv|] eqn:Hfv;
    [|split; [intros [? [=]]
             |intros (? & ? & [= <-] & _ & _ & _ & [? ?] & _); congruence]].
  destruct (parse_value float a) as [av|] eqn:Hav;
    [|split; [intros [? [=]]
             |intros (? & ? & _ & _ & [= <-] & _ & _ & [? ?]); congruence]].
  split; [intros _|intros _; by eexists].
  exists f, a. split_and!; [done..|by eexists|by eexists].
Qed.

(** When the section is there, it shows the difference of the two parsed
    values and its percentage of the forecast, 0 for a zero forecast. *)
Lemma deviation_values_shown event forecast_str actual_str forecast_val actual_val :
  forecast event = Some forecast_str → forecast_str ≠ ""%string →
  actual event = Some actual_str → actual_str ≠ ""%string →
  parse_value float forecast_str = Some forecast_val →
  parse_value float actual_str = Some actual_val →
  deviation_values float event
  = Some ((actual_val - forecast_val)%Q,
          if negb (Qeq_bool forecast_val 0)
          then ((actual_val - forecast_val) / forecast_val * 100)%Q else 0%Q).
Proof.
  intros Hf Hfne Ha Hane Hfv Hav. unfold deviation_values, Py.truthy.
  rewrite Hf, Ha. destruct (String.eqb_spec forecast_str ""); [done|].
  destruct (String.eqb_spec actual_str ""); [done|]. cbn. by rewrite Hfv, Hav.
Qed.

End Deviation.

(** C6 on whole thousands: the replacement of [K] by three zeros is the
    multiplication by 1000. *)
Example parse_value_whole_thousands :
  parse_value Py.float_decimal "216K" = Some (216000 # 1).
Proof. reflexivity. Qed.

(** C6, where the code departs from it. For a forecast of 35.5K and an
    actual of 38.7K the replacement of [K] by three zeros gives the strings
    35.5000 and 38.7000: the values parsed are 35.5 and 38.7, not 35500 and
    38700, and the message shows a deviation of +3.2 where the difference of
    the values in thousands is 3200. *)
Theorem deviation_misreads_decimal_thousands :
  Py.replace "%" "" (Py.replace "K" "000" "35.5K") = "35.5000"%string
  ∧ (∃ forecast_val actual_val deviation pct_deviation,
       parse_value Py.float_decimal "35.5K" = Some forecast_val
       ∧ parse_value Py.float_decimal "38.7K" = Some actual_val
       ∧ deviation_values Py.float_decimal Scenario.job_cuts
         = Some (deviation, pct_deviation)
       ∧ (forecast_val == 355 # 10)%Q ∧ ¬ (forecast_val == 35500 # 1)%Q
       ∧ (actual_val == 387 # 10)%Q ∧ ¬ (actual_val == 38700 # 1)%Q
       ∧ (deviation == 32 # 10)%Q ∧ ¬ (deviation == 3200 # 1)%Q)
  ∧ deviation_text Py.float_decimal Scenario.job_cuts
    = (nl +:+ "🟢 Deviation: +3.2 (+9.0%)")%string.
Proof.
  split_and!; [reflexivity| |by vm_compute].
  eexists _, _, _, _.
  split_and!; [reflexivity|reflexivity|reflexivity|by vm_compute..].
Qed.

(** ** Ids within a fetched batch *)

(** C8, where the code departs from it. Two rows of one day with one name
    (two speeches, at 10:00 and at 23:00) are both kept by
    [fetch_calendar_events] and get the same id; the run stores both, and the
    batch, the merged list and the stored document all hold two entries with
    one id. *)
Theorem same_day_rows_share_an_id :
  let rows := [Scenario.speech_morning_row; Scenario.speech_evening_row] in
  let run := Scenario.run_at 9 0 rows in
  let fetched := batch Datetime.strptime_strict run in
  let stored :=
    events (load_existing_data
              (main Datetime.strptime_strict Py.float_decimal run Missing).1) in
  time <$> fetched = ["10:00"; "23:00"]%string
  ∧ id <$> fetched = ["ba37cd4e569ea0fb"; "ba37cd4e569ea0fb"]%string
  ∧ ¬ NoDup (id <$> fetched)
  ∧ ¬ NoDup (id <$> merge_with_existing fetched (mkCalendarData None []))
  ∧ stored = [Scenario.speech_morning; Scenario.speech_evening]
  ∧ ¬ NoDup (id <$> stored).
Proof.
  cbn zeta.
  assert (∀ i : string, ¬ NoDup [i; i]) as Hdup.
  { intros i Hnd. apply NoDup_cons in Hnd as [Hin _]. apply Hin.
    apply list_elem_of_here. }
  split_and!; try (by vm_compute); vm_compute; apply Hdup.
Qed.

(** C2, where the code departs from it (the same defect as in C8: ids
    shared within a batch). The run of 09:00 on the two speeches of the day
    warns about the first and stores both entries under one id, the first with
    [notification_sent_12h] set and the second without. In the run of 09:30
    the dictionary of prior events keeps the second entry only, so the merged
    entry of the first speech has the flag cleared although the prior batch
    holds it set for that id; the warning for the first speech is sent
    again. *)
Theorem stored_flag_is_lost_when_ids_repeat :
  let rows := [Scenario.speech_morning_row; Scenario.speech_evening_row] in
  let first := Scenario.run_at 9 0 rows in
  let second := Scenario.run_at 9 30 rows in
  let old_data :=
    load_existing_data
      (main Datetime.strptime_strict Py.float_decimal first Missing).1 in
  let merged_events :=
    merge_with_existing (batch Datetime.strptime_strict second) old_data in
  let log :=
    (main_runs Datetime.strptime_strict Py.float_decimal [first; second]
       Missing).2 in
  events old_data = [Scenario.speech_morning; Scenario.speech_evening]
  ∧ notification_sent_12h Scenario.speech_morning = true
  ∧ merged_events = [Scenario.speech_fetched; Scenario.speech_evening]
  ∧ id Scenario.speech_fetched = id Scenario.speech_morning
  ∧ notification_sent_12h Scenario.speech_fetched = false
  ∧ attempt_event <$> fired TriggerA (id Scenario.speech_morning) log
    = [Scenario.speech_fetched; Scenario.speech_fetched]
  ∧ Forall (λ a, attempt_ok a = true) log.
Proof.
  cbn zeta. split_and!; try (by vm_compute).
  vm_compute. by repeat constructor.
Qed.

(** ** Sequences of runs *)

Section Runs.

Variable strptime : string → string → option Datetime.datetime.
Variable float : string → option Q.

Implicit Types (run : Run) (file : File) (t : Trigger) (i : string).

(** The fetcher of a run, its merged events and what the evaluator makes of
    them. *)
Local Abbreviation fetcher_of run :=
  (mkFetcher (env_telegram_bot_token run) (env_telegram_chat_id run)).
Local Abbreviation merged run file :=
  (merge_with_existing (batch strptime run) (load_existing_data file)).
Local Abbreviation checked run file :=
  (check_and_send_notifications strptime float (fetcher_of run)
     (requests_post run) (check_now run) (merged run file)).

Lemma main_spec run file :
  main strptime float run file
  = if is_empty (batch strptime run) then (file, [])
    else (save_calendar_data (fetcher_of run) (checked run file).1
            (utcnow_isoformat run) (write_outcome run) file,
          (checked run file).2).
Proof.
  unfold main, batch. destruct (is_empty _); [done|].
  by destruct (check_and_send_notifications _ _ _ _ _ _).
Qed.

Lemma is_empty_false (l : list Event) : is_empty l = false ↔ l ≠ [].
Proof. by destruct l. Qed.

(** A fetched event has both flags clear. *)
Lemma normalize_row_flags self start_date end_date row event t :
  normalize_row strptime self start_date end_date row = Some event →
  flag t event = false.
Proof.
  unfold normalize_row. intros Hrow.
  repeat case_match; simplify_eq; by destruct t.
Qed.

Lemma batch_flags run event t : event ∈ batch strptime run → flag t event = false.
Proof.
  unfold batch, fetch_calendar_events.
  destruct (response run) as [| |rows]; [by intros ?%elem_of_nil..|].
  intros (row & _ & Hrow)%list_elem_of_omap. by eapply normalize_row_flags.
Qed.

(** A merged event carries the flag that the file holds for its id. *)
Lemma merged_flag run file t m :
  m ∈ merged run file → flag t m = stored_flag t (id m) file.
Proof.
  intros (event & Hin & ->)%elem_of_merge_with_existing.
  unfold stored_flag. rewrite merge_event_id.
  destruct (old_events_map _ !! id event) as [old_event|] eqn:Hlook.
  - destruct (merge_event_flags _ _ _ Hlook) as [H12 Hrel]. by destruct t.
  - rewrite (merge_event_unseen _ _ Hlook). by apply (batch_flags run).
Qed.

Lemma merged_ids run file : id <$> merged run file = id <$> batch strptime run.
Proof. apply merge_with_existing_ids. Qed.


(** A flag that the file holds set silences the trigger for that id. *)
Lemma stored_flag_silences run file t i :
  stored_flag t i file = true → fired t i (main strptime float run file).2 = [].
Proof.
  intros Hstored. apply fired_nil. intros a Hin Ht Hi. revert Hin.
  rewrite main_spec. destruct (is_empty _); [by intros ?%elem_of_nil|].
  cbn [snd].
  intros (m & m' & calls & k & Hm & Hbody & Hin & _)%check_all_call_origin.
  assert (flag t m = true) as Hflag.
  { rewrite (merged_flag _ _ _ _ Hm), <- (body_id _ _ _ _ _ _ _ _ _ _ Hbody Hin).
    by rewrite Hi. }
  destruct (body_flag_set _ _ _ _ _ _ _ _ _ _ Hbody Hflag) as [_ Hnone].
  by apply (Hnone a Hin).
Qed.

(** A written document with pairwise distinct ids holds for each of its
    events the flags of that event. *)
Lemma stored_flag_written t (updated_events : list Event) stamp o :
  NoDup (id <$> updated_events) → o ∈ updated_events →
  stored_flag t (id o) (Document (mkCalendarData stamp updated_events))
  = flag t o.
Proof.
  intros Hnd Hin. unfold stored_flag. cbn [load_existing_data events].
  by rewrite (old_events_map_NoDup _ _ Hnd Hin).
Qed.

Lemma checked_ids run file :
  id <$> (checked run file).1 = id <$> batch strptime run.
Proof. by rewrite check_all_ids, merged_ids. Qed.






(** A flag that the file holds set stays set when the id is fetched again. *)
Lemma run_keeps_flag run file t i :
  NoDup (id <$> batch strptime run) → write_outcome run = Written →
  i ∈ id <$> batch strptime run → stored_flag t i file = true →
  stored_flag t i (main strptime float run file).1 = true.
Proof.
  intros Hnd Hwritten Hi Hstored. rewrite main_spec.
  destruct (is_empty _) eqn:Hempty.
  { destruct (batch strptime run); [by apply elem_of_nil in Hi|done]. }
  cbn [fst]. rewrite <- (merged_ids run file) in Hi.
  apply list_elem_of_fmap in Hi as (m & -> & Hm).
  destruct (check_all_event_result strptime float (fetcher_of run)
              (requests_post run) (check_now run) _ _ Hm)
    as (m' & calls & k & Hbody & Hm' & _).
  destruct (body_fetched_fields _ _ _ _ _ _ _ _ _ Hbody) as ([Hidm _] & _ & _).
  unfold save_calendar_data. rewrite Hwritten, Hidm.
  rewrite stored_flag_written; [|by rewrite checked_ids|done].
  apply (body_flag_set _ _ _ _ _ t _ _ _ _ Hbody).
  by rewrite (merged_flag _ _ _ _ Hm).
Qed.

Lemma main_runs_cons run rest file :
  main_runs strptime float (run :: rest) file
  = ((main_runs strptime float rest (main strptime float run file).1).1,
     (main strptime float run file).2
       ++ (main_runs strptime float rest (main strptime float run file).1).2).
Proof.
  cbn. destruct (main strptime float run file) as [file' log]. cbn.
  by destruct (main_runs strptime float rest file').
Qed.



End Runs.


(** ** Runs after the id has left the batches *)

Section Departure.

Variable strptime : string → string → option Datetime.datetime.
Variable float : string → option Q.

Implicit Types (run : Run) (file : File) (t : Trigger) (i : string).




End Departure.


(** ** [fetch_calendar_events] *)

Section Fetch.

Variable strptime : string → string → option Datetime.datetime.

Implicit Types (self : EconomicCalendarFetcher) (row : RawRow) (event : Event).

Lemma blank_to_none_shape cell : absent_or_text (blank_to_none cell).
Proof.
  destruct cell as [s|]; cbn; [|done].
  destruct (String.eqb_spec s ""); cbn; [done|].
  destruct (String.eqb_spec s (String "194" (String "160" ""))); cbn; done.
Qed.

(** What a row that passes the filters is and what it becomes. *)
Lemma normalize_row_Some self start_date end_date row event :
  normalize_row strptime self start_date end_date row = Some event →
  ∃ event_datetime img_key,
    data_event_datetime row ≠ ""%string
    ∧ strptime (data_event_datetime row) "%Y/%m/%d %H:%M:%S" = Some event_datetime
    ∧ start_date <= event_datetime <= end_date
    ∧ flagCur row = Some "USD"%string
    ∧ sentiment row = Some img_key
    ∧ (img_key = "bull3"%string ∧ impact event = "High"%string
       ∨ img_key = "bull2"%string ∧ impact event = "Medium"%string)
    ∧ date event = Datetime.strftime_date event_datetime
    ∧ time event = default (Datetime.strftime_hm event_datetime) (time_cell row)
    ∧ name event
      = Py.join " " (Py.split (default "Unknown Event"%string (event_cell row)))
    ∧ id event = generate_event_id self (date event) (name event)
    ∧ forecast event = blank_to_none (fore row)
    ∧ actual event = blank_to_none (act row)
    ∧ previous event = blank_to_none (prev row)
    ∧ status event
      = (if Py.truthy (actual event) then "completed" else "upcoming")%string
    ∧ notification_sent_12h event = false
    ∧ notification_sent_release event = false.
Proof.
  unfold normalize_row.
  destruct (String.eqb_spec (data_event_datetime row) "") as [|Hattr]; [done|].
  destruct (strptime _ _) as [event_datetime|] eqn:Hparse; [|done].
  destruct (_ || _) eqn:Hwindow; [done|].
  apply orb_false_iff in Hwindow as [Hlow Hhigh].
  apply Z.ltb_ge in Hlow. rewrite Z.gtb_ltb in Hhigh. apply Z.ltb_ge in Hhigh.
  destruct (flagCur row) as [currency|]; [|done].
  destruct (String.eqb_spec currency "USD") as [->|]; cbn [negb]; [|done].
  destruct (sentiment row) as [img_key|]; [|done].
  destruct (String.eqb_spec img_key "bull2") as [->|Hbull2]; cbn [negb orb].
  - intros [= <-]. exists event_datetime, "bull2"%string.
    cbn [id date time name impact forecast actual previous status
         notification_sent_12h notification_sent_release].
    split_and!; try reflexivity; try assumption. by right.
  - destruct (String.eqb_spec img_key "bull3") as [->|]; cbn [negb]; [|done].
    intros [= <-]. exists event_datetime, "bull3"%string.
    cbn [id date time name impact forecast actual previous status
         notification_sent_12h notification_sent_release].
    split_and!; try reflexivity; try assumption. by left.
Qed.

Lemma elem_of_fetch_calendar_events self now response event :
  event ∈ fetch_calendar_events strptime self now response ↔
  ∃ rows row,
    response = Markup rows ∧ row ∈ rows
    ∧ normalize_row strptime self now (now + Datetime.timedelta_days 28) row
      = Some event.
Proof.
  unfold fetch_calendar_events. destruct response as [| |rows].
  - split; [by intros ?%elem_of_nil|by intros (? & ? & [=] & _)].
  - split; [by intros ?%elem_of_nil|by intros (? & ? & [=] & _)].
  - rewrite list_elem_of_omap. split.
    + intros (row & Hin & Hrow). by exists rows, row.
    + intros (rows' & row & [= <-] & Hin & Hrow). by exists row.
Qed.

(** X6. Every fetched event has impact High or Medium, both notification
    flags false, optional texts that are absent or real texts (never the
    empty string or the no-break space placeholder), and a status that is
    completed exactly when the actual value is present. *)
Theorem fetched_events_are_well_formed self now response event :
  event ∈ fetch_calendar_events strptime self now response →
  (impact event = "High"%string ∨ impact event = "Medium"%string)
  ∧ notification_sent_12h event = false
  ∧ notification_sent_release event = false
  ∧ absent_or_text (forecast event)
  ∧ absent_or_text (actual event)
  ∧ absent_or_text (previous event)
  ∧ (status event = "completed"%string ∧ is_Some (actual event)
     ∨ status event = "upcoming"%string ∧ actual event = None).
Proof.
  intros (rows & row & _ & _ & Hrow)%elem_of_fetch_calendar_events.
  apply normalize_row_Some in Hrow
    as (dt & img_key & _ & _ & _ & _ & _ & Himpact & _ & _ & _ & _
        & Hfore & Hact & Hprev & Hstatus & H12 & Hrel).
  pose proof (blank_to_none_shape (act row)) as Hshape. rewrite <- Hact in Hshape.
  split_and!; [tauto|done|done| | | |].
  - rewrite Hfore. apply blank_to_none_shape.
  - done.
  - rewrite Hprev. apply blank_to_none_shape.
  - rewrite Hstatus. destruct (actual event) as [text|]; cbn; [|by right].
    left. destruct Hshape as [Hne _].
    destruct (String.eqb_spec text ""); [done|]. by split.
Qed.

(** X7. Every fetched event comes from a row of the markup whose timestamp
    parses and lies in the window from [now] to [now] plus 28 days, both ends
    included, whose currency is USD and whose impact marker is bull3 (the
    event is High) or bull2 (the event is Medium); the date of the event is
    the date of that timestamp. Rows of other currencies, of low or unknown
    impact, or outside the window leave no event. *)
Theorem fetched_events_pass_the_filters self now response event :
  event ∈ fetch_calendar_events strptime self now response →
  ∃ rows row event_datetime,
    response = Markup rows ∧ row ∈ rows
    ∧ strptime (data_event_datetime row) "%Y/%m/%d %H:%M:%S" = Some event_datetime
    ∧ now <= event_datetime <= now + Datetime.timedelta_days 28
    ∧ flagCur row = Some "USD"%string
    ∧ (sentiment row = Some "bull3"%string ∧ impact event = "High"%string
       ∨ sentiment row = Some "bull2"%string ∧ impact event = "Medium"%string)
    ∧ date event = Datetime.strftime_date event_datetime.
Proof.
  intros (rows & row & -> & Hin & Hrow)%elem_of_fetch_calendar_events.
  apply normalize_row_Some in Hrow
    as (dt & img_key & _ & Hparse & [Hlow Hhigh] & Hcur & Hsent & Himpact
        & Hdate & _).
  exists rows, row, dt. split_and!; try done.
  destruct Himpact as [[-> ?]|[-> ?]]; [by left|by right].
Qed.

(** X8. A row of the markup with a timestamp that parses and lies in the
    window, the two ends included, with currency USD and impact marker bull2
    or bull3, gives an event of the batch: with the date of the timestamp, the
    displayed time of the row, the collapsed name and the id of that date and
    name. *)
Theorem rows_in_the_window_are_fetched self now rows row event_datetime :
  row ∈ rows →
  data_event_datetime row ≠ ""%string →
  strptime (data_event_datetime row) "%Y/%m/%d %H:%M:%S" = Some event_datetime →
  now <= event_datetime <= now + Datetime.timedelta_days 28 →
  flagCur row = Some "USD"%string →
  sentiment row = Some "bull2"%string ∨ sentiment row = Some "bull3"%string →
  ∃ event,
    event ∈ fetch_calendar_events strptime self now (Markup rows)
    ∧ date event = Datetime.strftime_date event_datetime
    ∧ time event = default (Datetime.strftime_hm event_datetime) (time_cell row)
    ∧ name event
      = Py.join " " (Py.split (default "Unknown Event"%string (event_cell row)))
    ∧ id event = generate_event_id self (date event) (name event).
Proof.
  intros Hin Hattr Hparse [Hlow Hhigh] Hcur Hsent.
  assert (∃ event,
            normalize_row strptime self now
              (now + Datetime.timedelta_days 28) row = Some event)
    as [event Hrow].
  { unfold normalize_row.
    destruct (String.eqb_spec (data_event_datetime row) ""); [done|].
    rewrite Hparse, Hcur.
    apply Z.ltb_ge in Hlow. rewrite Hlow. cbn [orb].
    apply Z.ltb_ge in Hhigh. rewrite Z.gtb_ltb, Hhigh. cbn.
    destruct Hsent as [-> | ->]; cbn; by eexists. }
  exists event. split.
  - apply elem_of_fetch_calendar_events. by exists rows, row.
  - apply normalize_row_Some in Hrow
      as (dt & img_key & _ & Hparse' & _ & _ & _ & _ & Hdate & Htime & Hname
          & Hid & _).
    rewrite Hparse in Hparse'. injection Hparse' as <-. done.
Qed.

End Fetch.

(** X6 on the CPI row. *)
Lemma fetched_events_are_well_formed_witness :
  let fetched :=
    fetch_calendar_events Datetime.strptime_strict Scenario.fetcher
      (Datetime.make 2024 1 15 15 30 0)
      (Markup [Scenario.cpi_row; Scenario.retail_sales_row]) in
  Scenario.cpi_upcoming ∈ fetched
  ∧ (status Scenario.cpi_upcoming = "completed"%string
     ∧ is_Some (actual Scenario.cpi_upcoming)
     ∨ status Scenario.cpi_upcoming = "upcoming"%string
       ∧ actual Scenario.cpi_upcoming = None).
Proof.
  cbn zeta.
  assert (Scenario.cpi_upcoming
          ∈ fetch_calendar_events Datetime.strptime_strict Scenario.fetcher
              (Datetime.make 2024 1 15 15 30 0)
              (Markup [Scenario.cpi_row; Scenario.retail_sales_row])) as Hin
    by (vm_compute; apply list_elem_of_here).
  split; [exact Hin|].
  apply (fetched_events_are_well_formed Datetime.strptime_strict _ _ _ _ Hin).
Defined.

(** X7 on the CPI row. *)
Lemma fetched_events_pass_the_filters_witness :
  let now := Datetime.make 2024 1 15 15 30 0 in
  let response := Markup [Scenario.cpi_row; Scenario.retail_sales_row] in
  Scenario.cpi_upcoming
  ∈ fetch_calendar_events Datetime.strptime_strict Scenario.fetcher now response
  ∧ ∃ rows row event_datetime,
      response = Markup rows ∧ row ∈ rows
      ∧ Datetime.strptime_strict (data_event_datetime row) "%Y/%m/%d %H:%M:%S"
        = Some event_datetime
      ∧ now <= event_datetime <= now + Datetime.timedelta_days 28.
Proof.
  cbn zeta.
  assert (Scenario.cpi_upcoming
          ∈ fetch_calendar_events Datetime.strptime_strict Scenario.fetcher
              (Datetime.make 2024 1 15 15 30 0)
              (Markup [Scenario.cpi_row; Scenario.retail_sales_row])) as Hin
    by (vm_compute; apply list_elem_of_here).
  split; [exact Hin|].
  destruct (fetched_events_pass_the_filters Datetime.strptime_strict _ _ _ _ Hin)
    as (rows & row & dt & H1 & H2 & H3 & H4 & _).
  by exists rows, row, dt.
Defined.

(** X8 at the two ends of the window: a row at the instant of the fetch and
    a row 28 days later to the microsecond. *)
Lemma rows_in_the_window_are_fetched_witness :
  let now := Datetime.make 2024 1 15 15 30 0 in
  let rows := [Scenario.window_start_row; Scenario.window_end_row] in
  (∃ event,
     event ∈ fetch_calendar_events Datetime.strptime_strict Scenario.fetcher
               now (Markup rows)
     ∧ date event = "2024-01-15"%string ∧ time event = "15:30"%string)
  ∧ (∃ event,
       event ∈ fetch_calendar_events Datetime.strptime_strict Scenario.fetcher
                 now (Markup rows)
       ∧ date event = "2024-02-12"%string ∧ time event = "15:30"%string).
Proof.
  cbn zeta. split.
  - destruct (rows_in_the_window_are_fetched Datetime.strptime_strict
                Scenario.fetcher (Datetime.make 2024 1 15 15 30 0)
                [Scenario.window_start_row; Scenario.window_end_row]
                Scenario.window_start_row (Datetime.make 2024 1 15 15 30 0))
      as (event & Hin & Hdate & Htime & _);
      [apply list_elem_of_here|done|reflexivity|by vm_compute|reflexivity
      |by left|].
    exists event. split_and!; [done| |].
    + rewrite Hdate. by vm_compute.
    + rewrite Htime. by vm_compute.
  - destruct (rows_in_the_window_are_fetched Datetime.strptime_strict
                Scenario.fetcher (Datetime.make 2024 1 15 15 30 0)
                [Scenario.window_start_row; Scenario.window_end_row]
                Scenario.window_end_row (Datetime.make 2024 2 12 15 30 0))
      as (event & Hin & Hdate & Htime & _);
      [apply list_elem_of_further, list_elem_of_here|done|reflexivity
      |by vm_compute|reflexivity|by right|].
    exists event. split_and!; [done| |].
    + rewrite Hdate. by vm_compute.
    + rewrite Htime. by vm_compute.
Defined.

(** ** The collapsed name *)

Section Collapse.

(** A word: a text that is not empty and within which no white space
    character starts. *)
Local Abbreviation word := (λ w : string, w ≠ ""%string ∧ tight_before w "" = true).

Lemma append_cons a w r : (String a w +:+ r)%string = String a (w +:+ r).
Proof. reflexivity. Qed.

Lemma append_nil_l r : ("" +:+ r)%string = r.
Proof. reflexivity. Qed.

Lemma append_empty_r s : (s +:+ "")%string = s.
Proof. induction s as [|a s IH]; [done|]. by rewrite append_cons, IH. Qed.

Lemma append_snoc w a r :
  ((w +:+ String a "") +:+ r)%string = (w +:+ String a r)%string.
Proof. induction w as [|b w IH]; [done|]. by rewrite !append_cons, IH. Qed.

Lemma string_of_list_ascii_snoc (l : list ascii) a :
  string_of_list_ascii (l ++ [a])
  = (string_of_list_ascii l +:+ String a "")%string.
Proof.
  induction l as [|b l IH]; [done|].
  cbn [app string_of_list_ascii]. by rewrite IH, append_cons.
Qed.

(** *** White space characters at the bytes next to a space *)

Lemma is_space2_space_r a : Py.is_space2 a " " = false.
Proof. unfold Py.is_space2. by destruct (Ascii.eqb a _). Qed.

Lemma is_space3_space_m a c : Py.is_space3 a " " c = false.
Proof.
  unfold Py.is_space3. cbv zeta.
  by repeat (destruct (Ascii.eqb a _); cbn [andb orb]).
Qed.

Lemma is_space3_space_r a b : Py.is_space3 a b " " = false.
Proof.
  unfold Py.is_space3. cbv zeta.
  repeat (destruct (Ascii.eqb a _); cbn [andb orb]);
    by repeat (destruct (Ascii.eqb b _); cbn [andb orb]).
Qed.

Lemma space_width_space r : Py.space_width (String " " r) = 1%nat.
Proof. reflexivity. Qed.

(** A text that starts with no white space character when read alone
    starts with none when a space follows it. *)
Lemma space_width_before_space u r :
  u ≠ ""%string → Py.space_width u = 0%nat →
  Py.space_width (u +:+ String " " r) = 0%nat.
Proof.
  destruct u as [|a [|b [|c u]]]; [done|..]; intros _;
    rewrite ?append_cons, ?append_nil_l; unfold Py.space_width;
    (destruct (Py.is_space a); [done|]).
  - intros _. rewrite is_space2_space_r. destruct r as [|c r]; [done|].
    by rewrite is_space3_space_m.
  - destruct (Py.is_space2 a b); [done|]. intros _.
    by rewrite is_space3_space_r.
  - done.
Qed.

(** A text that starts with no white space character when something
    follows it starts with none when read alone. *)
Lemma space_width_alone u r :
  u ≠ ""%string → Py.space_width (u +:+ r) = 0%nat →
  Py.space_width u = 0%nat.
Proof.
  destruct u as [|a [|b [|c u]]]; [done|..]; intros _;
    rewrite ?append_cons, ?append_nil_l; unfold Py.space_width;
    (destruct (Py.is_space a); [done|]).
  - done.
  - by destruct (Py.is_space2 a b).
  - done.
Qed.

Lemma tight_before_alone w r :
  tight_before w r = true → tight_before w "" = true.
Proof.
  induction w as [|a w IH]; [done|]. cbn [tight_before].
  intros [Hhead Htail]%andb_true_iff. apply Nat.eqb_eq in Hhead.
  apply andb_true_iff. split; [|by apply IH]. apply Nat.eqb_eq.
  rewrite append_empty_r.
  by apply (space_width_alone (String a w) r).
Qed.

Lemma tight_before_space w r :
  tight_before w "" = true → tight_before w (String " " r) = true.
Proof.
  induction w as [|a w IH]; [done|]. cbn [tight_before].
  intros [Hhead Htail]%andb_true_iff. apply Nat.eqb_eq in Hhead.
  rewrite append_empty_r in Hhead.
  apply andb_true_iff. split; [|by apply IH]. apply Nat.eqb_eq.
  by apply (space_width_before_space (String a w) r).
Qed.

Lemma tight_before_snoc w a r :
  tight_before (w +:+ String a "") r
  = tight_before w (String a r) && Nat.eqb (Py.space_width (String a r)) 0.
Proof.
  induction w as [|b w IH].
  - cbn [tight_before]. change ("" +:+ String a "")%string with (String a "").
    cbn [tight_before]. change ("" +:+ r)%string with r.
    by rewrite andb_true_r.
  - rewrite append_cons. cbn [tight_before].
    by rewrite IH, append_snoc, andb_assoc.
Qed.

(** *** Splitting *)

(** The parts that [split] gives are words. *)
Lemma split_from_words s : ∀ skip cur,
  (skip ≠ 0%nat → cur = []) →
  tight_before (string_of_list_ascii (rev cur)) s = true →
  Forall word (Py.split_from skip cur s).
Proof.
  induction s as [|a s IH]; intros skip cur Hskip Htight; cbn [Py.split_from].
  - destruct cur as [|c cur]; [constructor|].
    constructor; [|constructor]. split; [|done].
    cbn [rev]. rewrite string_of_list_ascii_snoc.
    by destruct (string_of_list_ascii (rev cur)).
  - destruct skip as [|skip].
    + destruct (Py.space_width (String a s)) as [|width] eqn:Hwidth.
      * apply IH; [done|]. cbn [rev].
        by rewrite string_of_list_ascii_snoc, tight_before_snoc, Htight, Hwidth.
      * apply Forall_app. split; [|by apply IH].
        destruct cur as [|c cur]; [constructor|].
        constructor; [|constructor]. split.
        -- cbn [rev]. rewrite string_of_list_ascii_snoc.
           by destruct (string_of_list_ascii (rev cur)).
        -- by eapply tight_before_alone.
    + rewrite Hskip by done. by apply IH.
Qed.

Lemma single_spaced_tight w r : ∀ b,
  tight_before w r = true →
  single_spaced b (w +:+ r)
  = single_spaced (match w with EmptyString => b | _ => false end) r.
Proof.
  induction w as [|a w IH]; intros b; [done|].
  cbn [tight_before]. intros [Hhead Htail]%andb_true_iff.
  apply Nat.eqb_eq in Hhead.
  rewrite append_cons. cbn [single_spaced]. rewrite Hhead, IH by done.
  by destruct w.
Qed.

Lemma join_cons2 sep w w' ws :
  Py.join sep (w :: w' :: ws) = (w +:+ sep +:+ Py.join sep (w' :: ws))%string.
Proof. reflexivity. Qed.

Lemma join_words_single_spaced w (ws : list string) :
  Forall word (w :: ws) →
  single_spaced true (Py.join " " (w :: ws)) = true.
Proof.
  revert w. induction ws as [|w' ws IH]; intros w Hall.
  - apply Forall_cons in Hall as [[Hne Hw] _]. cbn [Py.join].
    pose proof (single_spaced_tight w "" true Hw) as Hfirst.
    rewrite append_empty_r in Hfirst. rewrite Hfirst. by destruct w.
  - apply Forall_cons in Hall as [[Hne Hw] Hall].
    rewrite join_cons2.
    change (" " +:+ Py.join " " (w' :: ws))%string
      with (String " " (Py.join " " (w' :: ws))).
    rewrite single_spaced_tight by (by apply tight_before_space).
    destruct w as [|a w]; [done|].
    cbn [single_spaced]. rewrite space_width_space.
    change (Ascii.eqb " " " ") with true. cbn [negb andb]. by apply IH.
Qed.

(** The collapsed form of any text has single spaces only. *)
Lemma collapse_single_spaced s :
  whitespace_collapsed (Py.join " " (Py.split s)).
Proof.
  unfold whitespace_collapsed, Py.split.
  pose proof (split_from_words s 0 [] (λ H, False_ind _ (H eq_refl)) eq_refl)
    as Hall.
  destruct (Py.split_from 0 [] s) as [|w ws]; [by left|].
  right. by apply join_words_single_spaced.
Qed.

Lemma split_from_after_word w r : ∀ cur,
  tight_before w r = true →
  Py.split_from 0 cur (w +:+ r)
  = Py.split_from 0 (rev (list_ascii_of_string w) ++ cur) r.
Proof.
  induction w as [|a w IH]; intros cur; [done|].
  cbn [tight_before]. intros [Hhead Htail]%andb_true_iff.
  apply Nat.eqb_eq in Hhead.
  rewrite append_cons. cbn [Py.split_from list_ascii_of_string rev].
  rewrite Hhead, IH by done. by rewrite <- app_assoc.
Qed.

Lemma flush_of_word w :
  w ≠ ""%string →
  match rev (list_ascii_of_string w) ++ [] with
  | [] => []
  | _ => [string_of_list_ascii (rev (rev (list_ascii_of_string w) ++ []))]
  end = [w].
Proof.
  intros Hne. rewrite app_nil_r, rev_involutive, string_of_list_ascii_of_string.
  destruct (rev (list_ascii_of_string w)) as [|a l] eqn:Hrev; [|done].
  apply (f_equal (@rev ascii)) in Hrev. rewrite rev_involutive in Hrev.
  by destruct w.
Qed.

(** Joining words with single spaces and splitting again gives the words. *)
Lemma split_join_words (ws : list string) :
  Forall word ws → Py.split (Py.join " " ws) = ws.
Proof.
  unfold Py.split. induction ws as [|w ws IH]; intros Hall; [done|].
  apply Forall_cons in Hall as [[Hne Hw] Hall]. destruct ws as [|w' ws].
  - cbn [Py.join]. pose proof (split_from_after_word w "" [] Hw) as Hsplit.
    rewrite append_empty_r in Hsplit. rewrite Hsplit.
    cbn [Py.split_from]. by apply flush_of_word.
  - rewrite join_cons2.
    change (" " +:+ Py.join " " (w' :: ws))%string
      with (String " " (Py.join " " (w' :: ws))).
    rewrite split_from_after_word by (by apply tight_before_space).
    cbn [Py.split_from]. rewrite space_width_space.
    rewrite flush_of_word by done. cbn [app]. f_equal. by apply IH.
Qed.

(** Collapsing keeps the words of the text, so collapsing again changes
    nothing. *)
Lemma collapse_keeps_words s :
  Py.split (Py.join " " (Py.split s)) = Py.split s.
Proof.
  apply split_join_words.
  apply (split_from_words s 0 [] (λ H, False_ind _ (H eq_refl)) eq_refl).
Qed.

End Collapse.

(** X9. The name of every fetched event is collapsed: it is empty or made of
    words separated by single spaces, with no white space at either end and
    no white space character other than the space, white space being every
    character at which [str.split()] splits, the no-break space and the
    other white space characters beyond ASCII included; collapsing it again
    gives the same name. *)
Theorem fetched_names_are_collapsed strptime self now response event :
  event ∈ fetch_calendar_events strptime self now response →
  whitespace_collapsed (name event)
  ∧ Py.join " " (Py.split (name event)) = name event.
Proof.
  intros (rows & row & _ & _ & Hrow)%elem_of_fetch_calendar_events.
  apply normalize_row_Some in Hrow
    as (dt & img_key & _ & _ & _ & _ & _ & _ & _ & _ & -> & _).
  split; [apply collapse_single_spaced|]. by rewrite collapse_keeps_words.
Qed.

(** X9 on a row whose name has a no-break space, and on one with a run of
    spaces. *)
Lemma fetched_names_are_collapsed_witness :
  let fetched :=
    fetch_calendar_events Datetime.strptime_strict Scenario.fetcher
      (Datetime.make 2024 1 15 15 30 0)
      (Markup [Scenario.core_cpi_row; Scenario.window_start_row]) in
  (∃ event, event ∈ fetched
     ∧ name event = "Core CPI (MoM)"%string
     ∧ id event = "5bc42821e7f29dda"%string
     ∧ whitespace_collapsed (name event))
  ∧ (∃ event, event ∈ fetched
       ∧ name event = "Empire State Manufacturing Index"%string
       ∧ whitespace_collapsed (name event)).
Proof.
  cbn zeta.
  assert (∃ event,
    event ∈ fetch_calendar_events Datetime.strptime_strict Scenario.fetcher
      (Datetime.make 2024 1 15 15 30 0)
      (Markup [Scenario.core_cpi_row; Scenario.window_start_row])
    ∧ name event = "Core CPI (MoM)"%string
    ∧ id event = "5bc42821e7f29dda"%string) as (event1 & Hin1 & Hname1 & Hid1).
  { vm_compute. eexists. split_and!; [apply list_elem_of_here|reflexivity..]. }
  assert (∃ event,
    event ∈ fetch_calendar_events Datetime.strptime_strict Scenario.fetcher
      (Datetime.make 2024 1 15 15 30 0)
      (Markup [Scenario.core_cpi_row; Scenario.window_start_row])
    ∧ name event = "Empire State Manufacturing Index"%string)
    as (event2 & Hin2 & Hname2).
  { vm_compute. eexists.
    split; [apply list_elem_of_further, list_elem_of_here|reflexivity]. }
  split.
  - exists event1. split_and!; [done..|].
    apply (fetched_names_are_collapsed Datetime.strptime_strict _ _ _ _ Hin1).
  - exists event2. split_and!; [done..|].
    apply (fetched_names_are_collapsed Datetime.strptime_strict _ _ _ _ Hin2).
Defined.

(** ** The shape of an event id *)

Lemma is_hex_digit_hex_digit x : is_hex_digit (MD5.hex_digit x) = true.
Proof.
  unfold MD5.hex_digit.
  pose proof (Z.mod_pos_bound x 16 eq_refl) as Hrange.
  assert (Z.to_nat (x mod 16) < 16)%nat as Hlt by lia.
  destruct (Z.to_nat (x mod 16)) as [|n]; [reflexivity|].
  do 15 (destruct n as [|n]; [reflexivity|]). lia.
Qed.

Lemma hex_bytes_are_hex_digits (bs : list Z) :
  all_chars is_hex_digit
    (string_of_list_ascii (concat (map MD5.hex_byte bs))) = true.
Proof.
  induction bs as [|b bs IH]; [done|].
  cbn [map concat MD5.hex_byte app string_of_list_ascii all_chars].
  by rewrite !is_hex_digit_hex_digit, IH.
Qed.

Lemma all_chars_slice_to p n : ∀ s,
  all_chars p s = true → all_chars p (Py.slice_to n s) = true.
Proof.
  induction n as [|n IH]; intros [|a s]; cbn [Py.slice_to all_chars]; try done.
  intros [Ha Hs]%andb_true_iff. by rewrite Ha, IH.
Qed.

(** X10. An event id is made of lowercase hexadecimal digits only, whatever
    the date and the name are, so it is safe as a key and in a message. *)
Theorem generate_event_id_is_lowercase_hex self date name :
  all_chars is_hex_digit (generate_event_id self date name) = true.
Proof.
  unfold generate_event_id, MD5.hexdigest. cbv zeta.
  apply all_chars_slice_to, hex_bytes_are_hex_digits.
Qed.
(** ** What a pass of the evaluator does to the events and what it sends *)

Lemma same_fetched_fields_trans e1 e2 e3 :
  same_fetched_fields e1 e2 → same_fetched_fields e2 e3 →
  same_fetched_fields e1 e3.
Proof.
  unfold same_fetched_fields. intros H12 H23.
  destruct_and!. split_and!; congruence.
Qed.

Lemma hours_window (td : Z) :
  (0 <= Datetime.hours td)%Q ∧ (Datetime.hours td <= 12)%Q
  ↔ 0 <= td <= 12 * Datetime.us_per_hour.
Proof.
  unfold Datetime.hours, Qle. cbn [Qnum Qden].
  change (Z.pos (Z.to_pos Datetime.us_per_hour)) with Datetime.us_per_hour.
  change Datetime.us_per_hour with 3600000000. lia.
Qed.

Section Passes.

Variable strptime : string → string → option Datetime.datetime.
Variable float : string → option Q.
Variable self : EconomicCalendarFetcher.
Variable requests_post : nat → string → bool.
Variable now : Datetime.datetime.

Implicit Types (event : Event) (calls log : list Attempt) (a : Attempt).

Local Abbreviation body := (check_event strptime float self requests_post now).
Local Abbreviation loop := (check_loop strptime float self requests_post now).
Local Abbreviation check_all :=
  (check_and_send_notifications strptime float self requests_post now).
Local Abbreviation send := (send_telegram_notification self requests_post).
Local Abbreviation scheduled event :=
  (strptime (date event +:+ " " +:+ time event) "%Y-%m-%d %H:%M").

(** The ways through the loop body of an event whose date and time parse. *)
Ltac body_cases :=
  unfold check_event;
  destruct (trigger_a_due _ _) eqn:Ha;
    [destruct (send_telegram_notification _ _ _ (format_warning_message _ _ _))
       eqn:Hoka|];
    (destruct (trigger_b_due _) eqn:Hb;
       [destruct (send_telegram_notification _ _ _ (format_release_message _ _ _))
          eqn:Hokb|]).

Ltac in_calls :=
  repeat match goal with
    | H : _ ∈ [] |- _ => by apply elem_of_nil in H
    | H : _ ∈ _ ++ _ |- _ => apply elem_of_app in H as [H|H]
    | H : _ ∈ _ :: _ |- _ => apply elem_of_cons in H as [->|H]
    end.

(** Why a call is made and for which event. *)
Lemma body_call_reasons k event event' calls a :
  body k event = (event', calls) → a ∈ calls →
  ∃ event_datetime,
    scheduled event = Some event_datetime
    ∧ impact event = "High"%string
    ∧ match attempt_trigger a with
      | TriggerA =>
          let hours_until := Datetime.hours (event_datetime - now) in
          attempt_event a = event
          ∧ notification_sent_12h event = false
          ∧ (0 <= hours_until)%Q ∧ (hours_until <= 12)%Q
      | TriggerB =>
          same_fetched_fields event (attempt_event a)
          ∧ status (attempt_event a) = "completed"%string
          ∧ Py.truthy (actual event) = true
          ∧ notification_sent_release event = false
      end.
Proof.
  unfold check_event.
  destruct (scheduled event) as [event_datetime|] eqn:Hparse;
    [|by intros [= <- <-] ?%elem_of_nil].
  intros Hbody Hin. exists event_datetime. split; [done|]. revert Hbody.
  destruct (trigger_a_due _ _) eqn:Ha.
  - pose proof Ha as (Himpact & H12 & Hlow & Hhigh)%trigger_a_due_spec.
    destruct (send_telegram_notification _ _ _ (format_warning_message _ _ _));
      (destruct (trigger_b_due _) eqn:Hb;
       [apply trigger_b_due_spec in Hb as (_ & Hstatus & Hactual & Hrel)|]);
      intros [= <- <-]; in_calls; cbn [attempt_trigger attempt_event attempt_message];
      split_and!; try done.
  - destruct (trigger_b_due _) eqn:Hb; intros [= <- <-]; in_calls.
    apply trigger_b_due_spec in Hb as (Himpact & Hstatus & Hactual & Hrel).
    cbn [attempt_trigger attempt_event attempt_message]. by split_and!.
Qed.

(** The calls of one event: at most a warning followed by a release call,
    each with the outcome of its own delivery. *)
Lemma body_calls_shape k event event' calls :
  body k event = (event', calls) →
  attempt_trigger <$> calls `sublist_of` [TriggerA; TriggerB]
  ∧ ∀ j a, calls !! j = Some a →
           attempt_ok a = send (k + j) (attempt_message a).
Proof.
  unfold check_event.
  destruct (scheduled event) as [event_datetime|].
  - body_cases; intros [= <- <-]; cbn [fmap list_fmap app];
      (split;
       [by repeat first [apply sublist_skip|apply sublist_cons|apply sublist_nil]|]);
      intros [|[|j]] a [= <-]; cbn [attempt_ok attempt_message length];
      rewrite ?Nat.add_0_r in *; by rewrite ?Hoka, ?Hokb.
  - intros [= <- <-]. split; [apply sublist_nil_l|]. by intros j a.
Qed.

(** Without a delivery the event is left as it was. *)
Lemma body_undelivered k event event' calls :
  (∀ k' message, send k' message = false) →
  body k event = (event', calls) →
  event' = event ∧ ∀ a, a ∈ calls → attempt_ok a = false.
Proof.
  intros Hsend. unfold check_event.
  destruct (scheduled event) as [event_datetime|].
  - destruct (trigger_a_due _ _); rewrite ?Hsend;
      (destruct (trigger_b_due _); rewrite ?Hsend);
      intros [= <- <-]; (split; [done|]); intros a Hin; by in_calls.
  - intros [= <- <-]. split; [done|]. by intros a ?%elem_of_nil.
Qed.

(** An event none of whose triggers is due passes through the body
    untouched and without a call. *)
Lemma body_quiet self' requests_post' k event :
  (∀ event_datetime,
     scheduled event = Some event_datetime →
     trigger_a_due (Datetime.hours (event_datetime - now)) event = false
     ∧ trigger_b_due event = false) →
  check_event strptime float self' requests_post' now k event = (event, []).
Proof.
  intros Hquiet. unfold check_event.
  destruct (scheduled event) as [event_datetime|]; [|done].
  destruct (Hquiet event_datetime eq_refl) as [-> Hb]. by rewrite Hb.
Qed.

(** After a pass whose calls for the event were all delivered, no trigger of
    the event is due at the same instant. *)
Lemma body_settled k event event' calls event_datetime :
  body k event = (event', calls) →
  (∀ a, a ∈ calls → attempt_ok a = true) →
  scheduled event' = Some event_datetime →
  trigger_a_due (Datetime.hours (event_datetime - now)) event' = false
  ∧ trigger_b_due event' = false.
Proof.
  intros Hbody Hok Hparse'.
  destruct (body_fetched_fields strptime float self requests_post now
              _ _ _ _ Hbody)
    as (Hsame & Hstatus & _).
  unfold same_fetched_fields in Hsame.
  destruct Hsame as (_ & Hdate & Htime & _ & Himpact & _ & Hactual & _).
  assert (scheduled event = Some event_datetime) as Hparse
    by (by rewrite Hdate, Htime).
  split; apply not_true_iff_false.
  - intros (Hhigh & H12 & Hlow & Hupp)%trigger_a_due_spec.
    assert (trigger_a_due (Datetime.hours (event_datetime - now)) event = true)
      as Ha.
    { apply trigger_a_due_spec. split_and!; [congruence| |done..].
      apply not_true_iff_false. intros Hset.
      destruct (body_flag_set strptime float self requests_post now
                  TriggerA _ _ _ _ Hbody Hset) as [Hset' _].
      cbn [flag] in Hset'. congruence. }
    apply (body_trigger_a_iff strptime float self requests_post now
             _ _ _ _ _ Hparse Hbody) in Ha as (a & Hin & Ht).
    pose proof (body_flag_after_call strptime float self requests_post now
                  TriggerA _ _ _ _ _ Hbody Hin Ht) as Hflag.
    cbn [flag] in Hflag. rewrite (Hok a Hin) in Hflag. congruence.
  - intros (Hhigh & Hcompleted & Htruthy & Hrel)%trigger_b_due_spec.
    assert (trigger_b_due event = true) as Hb.
    { apply trigger_b_due_spec. split_and!; [congruence..|].
      apply not_true_iff_false. intros Hset.
      destruct (body_flag_set strptime float self requests_post now
                  TriggerB _ _ _ _ Hbody Hset) as [Hset' _].
      cbn [flag] in Hset'. congruence. }
    destruct (body_trigger_b strptime float self requests_post now
                _ _ _ _ _ Hparse Hbody Hb) as (a & Hin & Ht).
    pose proof (body_flag_after_call strptime float self requests_post now
                  TriggerB _ _ _ _ _ Hbody Hin Ht) as Hflag.
    cbn [flag] in Hflag. rewrite (Hok a Hin) in Hflag. congruence.
Qed.

(** *** The loop *)

(** The results of the body on the events, in order, with the calls numbered
    as the run makes them. *)
Lemma loop_results events : ∀ updated_events log,
  ∃ results,
    Forall2 (λ event r, ∃ k, body k event = r) events results
    ∧ loop events updated_events log
      = (updated_events ++ results.*1, log ++ concat results.*2)
    ∧ ∀ j a, concat results.*2 !! j = Some a →
             attempt_ok a = send (length log + j) (attempt_message a).
Proof.
  induction events as [|event events IH]; intros updated_events log;
    cbn [check_loop].
  - exists []. split_and!; [constructor|cbn; by rewrite !app_nil_r|].
    by intros j a.
  - destruct (body (length log) event) as [event' calls] eqn:Hbody.
    destruct (IH (updated_events ++ [event']) (log ++ calls))
      as (results & Hall & -> & Hnum).
    exists ((event', calls) :: results). split_and!.
    + constructor; [by exists (length log)|done].
    + cbn. by rewrite <- !app_assoc.
    + intros j a. change (concat ((event', calls) :: results).*2)
        with (calls ++ concat results.*2).
      destruct (decide (j < length calls)%nat) as [Hlt|Hge].
      * rewrite lookup_app_l by done.
        by apply (body_calls_shape _ _ _ _ Hbody).
      * rewrite lookup_app_r by lia. intros Hj%Hnum.
        rewrite length_app in Hj.
        by replace (length log + length calls + (j - length calls))%nat
          with (length log + j)%nat in Hj by lia.
Qed.

Lemma check_all_results events :
  ∃ results,
    Forall2 (λ event r, ∃ k, body k event = r) events results
    ∧ check_all events = (results.*1, concat results.*2)
    ∧ ∀ j a, concat results.*2 !! j = Some a →
             attempt_ok a = send j (attempt_message a).
Proof.
  unfold check_and_send_notifications.
  destruct (loop_results events [] []) as (results & Hall & -> & Hnum).
  by exists results.
Qed.

(** A list of events none of which has a due trigger passes through the
    evaluator untouched and without a call. *)
Lemma check_all_quiet self' requests_post' events :
  (∀ event k,
     event ∈ events →
     check_event strptime float self' requests_post' now k event
     = (event, [])) →
  check_and_send_notifications strptime float self' requests_post' now events
  = (events, []).
Proof.
  intros Hquiet. destruct (check_all_spec strptime float self' requests_post'
                             now events) as (results & Hall & ->).
  assert (results = (λ event, (event, [])) <$> events) as ->.
  { induction Hall as [|event r events results [k Hbody] _ IH]; [done|].
    rewrite fmap_cons, <- IH.
    - f_equal. rewrite <- Hbody. apply Hquiet, list_elem_of_here.
    - intros e k' Hin. by apply Hquiet, list_elem_of_further. }
  clear. f_equal; induction events as [|event events IH]; cbn; by f_equal.
Qed.

Lemma concat_length_le {A} (n : nat) (ls : list (list A)) :
  Forall (λ l, (length l ≤ n)%nat) ls →
  (length (concat ls) ≤ n * length ls)%nat.
Proof.
  induction 1 as [|l ls Hl _ IH]; cbn [concat length]; [lia|].
  rewrite length_app. lia.
Qed.

Lemma check_all_fetched_fields events :
  Forall2 (λ event event',
             same_fetched_fields event event' ∧ status event' = status event)
    events (check_all events).1.
Proof.
  destruct (check_all_spec strptime float self requests_post now events)
    as (results & Hall & ->). cbn [fst].
  apply Forall2_fmap_r. eapply Forall2_impl; [exact Hall|].
  intros event [event' calls] [k Hbody]. cbn [fst].
  by destruct (body_fetched_fields strptime float self requests_post now
                 _ _ _ _ Hbody) as (? & ? & _).
Qed.

(** X11. A pass of the evaluator gives back the events it was given, in the
    same order and number, each with the fetched fields and the status it
    had. Of an event only the two flags can differ: a flag that was true
    stays true, and a flag is true afterwards only if it was true before or
    a call of its trigger for that id was delivered in the pass. *)
Theorem evaluation_only_raises_flags events :
  let result :=
    check_and_send_notifications strptime float self requests_post now events in
  Forall2
    (λ event event',
       same_fetched_fields event event' ∧ status event' = status event
       ∧ ∀ t, (flag t event = true → flag t event' = true)
              ∧ (flag t event' = true →
                 flag t event = true
                 ∨ ∃ a, a ∈ result.2 ∧ attempt_trigger a = t
                        ∧ attempt_ok a = true
                        ∧ id (attempt_event a) = id event))
    events result.1.
Proof.
  cbv zeta.
  destruct (check_all_spec strptime float self requests_post now events)
    as (results & Hall & ->). cbn [fst snd].
  apply Forall2_fmap_r, Forall2_same_length_lookup.
  split; [by eapply Forall2_length|].
  intros i event [event' calls] Hevent Hr.
  destruct (Forall2_lookup_lr _ _ _ _ _ _ Hall Hevent Hr) as [k Hbody].
  cbn [fst].
  destruct (body_fetched_fields strptime float self requests_post now
              _ _ _ _ Hbody) as (Hsame & Hstatus & _).
  split_and!; [done..|]. intros t. split.
  - intros Hset.
    by destruct (body_flag_set strptime float self requests_post now
                   t _ _ _ _ Hbody Hset).
  - intros Hset'.
    destruct (body_flag_true_inv strptime float self requests_post now
                t _ _ _ _ Hbody Hset') as [?|(a & Hin & Ht & Hok)];
      [by left|right].
    exists a. split_and!; [|done..|].
    + apply elem_of_concat. exists calls. split; [done|].
      apply list_elem_of_lookup_2 in Hr.
      by apply (list_elem_of_fmap_2 snd) in Hr.
    + by apply (body_id strptime float self requests_post now
                  _ _ _ _ _ Hbody Hin).
Qed.

(** X12. Every call that a pass makes has its reasons in one of the events
    given: the date and time of that event parse and its impact is High; a
    warning is sent for the event as it stands, with its warning flag false
    and its start between 0 and 12 hours ahead; a release call is sent for
    an event that is completed with an actual value and a false release
    flag. No call is made for any other event. *)
Theorem calls_are_for_due_events events a :
  a ∈ (check_and_send_notifications strptime float self requests_post now
         events).2 →
  ∃ event event_datetime,
    event ∈ events
    ∧ strptime (date event +:+ " " +:+ time event) "%Y-%m-%d %H:%M"
      = Some event_datetime
    ∧ impact event = "High"%string
    ∧ match attempt_trigger a with
      | TriggerA =>
          let hours_until := Datetime.hours (event_datetime - now) in
          attempt_event a = event
          ∧ notification_sent_12h event = false
          ∧ (0 <= hours_until)%Q ∧ (hours_until <= 12)%Q
      | TriggerB =>
          same_fetched_fields event (attempt_event a)
          ∧ status (attempt_event a) = "completed"%string
          ∧ Py.truthy (actual event) = true
          ∧ notification_sent_release event = false
      end.
Proof.
  intros (event & event' & calls & k & Hevent & Hbody & Hin & _)%check_all_call_origin.
  destruct (body_call_reasons _ _ _ _ _ Hbody Hin) as (event_datetime & H).
  by exists event, event_datetime.
Qed.

(** X13. The log of a pass is made of the calls of the events, in the order
    of the events: each event makes no call, a warning, a release call, or a
    warning followed by a release call, all for its own fetched fields; so a
    pass makes at most two calls per event. The outcome recorded for the
    call at position [j] is that of the [j]-th delivery of the pass. *)
Theorem calls_follow_the_events_in_order events :
  let log :=
    (check_and_send_notifications strptime float self requests_post now
       events).2 in
  ∃ per_event : list (list Attempt),
    log = concat per_event
    ∧ Forall2
        (λ event calls,
           attempt_trigger <$> calls `sublist_of` [TriggerA; TriggerB]
           ∧ ∀ a, a ∈ calls → same_fetched_fields event (attempt_event a))
        events per_event
    ∧ (length log ≤ 2 * length events)%nat
    ∧ ∀ j a, log !! j = Some a →
             attempt_ok a
             = send_telegram_notification self requests_post j
                 (attempt_message a).
Proof.
  cbv zeta. destruct (check_all_results events) as (results & Hall & -> & Hnum).
  cbn [snd]. exists results.*2.
  assert (Forall2
            (λ event calls,
               attempt_trigger <$> calls `sublist_of` [TriggerA; TriggerB]
               ∧ ∀ a, a ∈ calls → same_fetched_fields event (attempt_event a))
            events results.*2) as Hshape.
  { apply Forall2_fmap_r. eapply Forall2_impl; [exact Hall|].
    intros event [event' calls] [k Hbody]. cbn [snd]. split.
    - by destruct (body_calls_shape _ _ _ _ Hbody).
    - by destruct (body_fetched_fields strptime float self requests_post now
                     _ _ _ _ Hbody) as (_ & _ & ?). }
  split_and!; [done..| |done].
  rewrite (Forall2_length _ _ _ Hshape). apply concat_length_le.
  eapply Forall2_Forall_r; [exact Hshape|]. apply Forall_true.
  intros event calls [Hsub%sublist_length _].
  by rewrite length_fmap in Hsub.
Qed.

(** X14. Without a bot token, without a chat id, or when every request to
    the sink fails, a pass still makes its calls but none is delivered, and
    it gives back the events exactly as they were: no flag is set, so the
    same calls are due again on the next pass. *)
Theorem failed_delivery_changes_nothing events :
  telegram_bot_token self = ""%string ∨ telegram_chat_id self = ""%string
  ∨ (∀ k message, requests_post k message = false) →
  (check_and_send_notifications strptime float self requests_post now events).1
  = events
  ∧ ∀ a, a ∈ (check_and_send_notifications strptime float self requests_post
                now events).2 → attempt_ok a = false.
Proof.
  intros Hmissing.
  assert (∀ k message, send k message = false) as Hsend.
  { intros k message. unfold send_telegram_notification.
    destruct Hmissing as [->| [->|Hpost]]; [done| |].
    - by rewrite orb_true_r.
    - rewrite Hpost. by destruct (_ || _). }
  split.
  - destruct (check_all_spec strptime float self requests_post now events)
      as (results & Hall & ->). cbn [fst].
    induction Hall as [|event [event' calls] events results [k Hbody] _ IH];
      [done|].
    rewrite fmap_cons, IH. cbn [fst].
    by destruct (body_undelivered _ _ _ _ Hsend Hbody) as [-> _].
  - intros a (event & event' & calls & k & _ & Hbody & Hin & _)%check_all_call_origin.
    destruct (body_undelivered _ _ _ _ Hsend Hbody) as [_ Hfailed].
    by apply Hfailed.
Qed.

(** X15. After a pass in which every call was delivered, a second pass over
    its result at the same instant makes no call and changes nothing,
    whatever the credentials and the sink are then. *)
Theorem second_pass_is_silent events self' requests_post' :
  (∀ a, a ∈ (check_and_send_notifications strptime float self requests_post
               now events).2 → attempt_ok a = true) →
  check_and_send_notifications strptime float self' requests_post' now
    (check_and_send_notifications strptime float self requests_post now
       events).1
  = ((check_and_send_notifications strptime float self requests_post now
        events).1, []).
Proof.
  intros Hok. apply check_all_quiet. intros event' k' Hin.
  destruct (check_all_updated_origin strptime float self requests_post now
              _ _ Hin) as (event & calls & k & _ & Hbody & Hsub).
  apply body_quiet. intros event_datetime Hparse.
  apply (body_settled _ _ _ _ _ Hbody); [|done].
  intros a Ha. by apply Hok, Hsub.
Qed.

(** X19. In terms of the clock: an event whose date and time parse gets a
    warning call exactly when its impact is High, its warning flag is false
    and it starts at [now] or later and at most twelve hours after [now],
    both ends included. *)
Theorem warning_window_is_the_next_twelve_hours
    k event event' calls event_datetime :
  strptime (date event +:+ " " +:+ time event) "%Y-%m-%d %H:%M"
  = Some event_datetime →
  check_event strptime float self requests_post now k event = (event', calls) →
  (∃ a, a ∈ calls ∧ attempt_trigger a = TriggerA) ↔
  impact event = "High"%string ∧ notification_sent_12h event = false
  ∧ now <= event_datetime <= now + 12 * Datetime.us_per_hour.
Proof.
  intros Hparse Hbody.
  rewrite (body_trigger_a_iff strptime float self requests_post now
             _ _ _ _ _ Hparse Hbody), trigger_a_due_spec.
  pose proof (hours_window (event_datetime - now)) as Hwindow.
  split.
  - intros (? & ? & Hlow & Hupp).
    destruct (proj1 Hwindow (conj Hlow Hupp)). split_and!; [done..| |]; lia.
  - intros (? & ? & Hlow & Hupp).
    assert (0 <= event_datetime - now <= 12 * Datetime.us_per_hour)
      as Hin%Hwindow by lia.
    by destruct Hin.
Qed.

End Passes.

(** ** What a run leaves in the file *)

Section Stored.

Variable strptime : string → string → option Datetime.datetime.
Variable float : string → option Q.

Implicit Types (run : Run) (file : File) (t : Trigger) (i : string).

Local Abbreviation fetcher_of run :=
  (mkFetcher (env_telegram_bot_token run) (env_telegram_chat_id run)).

(** The status of a fetched event is not changed by the merge. *)
Lemma merge_event_status_of_fetched self start_date end_date row event m :
  normalize_row strptime self start_date end_date row = Some event →
  status (merge_event m event) = status event.
Proof.
  intros (dt & img_key & _ & _ & _ & _ & _ & _ & _ & _ & _ & _ & _ & _ & _
          & Hstatus & _)%normalize_row_Some.
  destruct (merge_event_status m event) as [?|[Hcompleted Htruthy]]; [done|].
  by rewrite Hstatus, Htruthy.
Qed.

Lemma merge_with_existing_fetched_fields run old_data :
  Forall2 (λ event merged_event,
             same_fetched_fields event merged_event
             ∧ status merged_event = status event)
    (batch strptime run) (merge_with_existing (batch strptime run) old_data).
Proof.
  unfold merge_with_existing. apply Forall2_fmap_r, Forall_Forall2_diag.
  apply Forall_forall. intros event Hin. split.
  - apply merge_event_fetched_fields.
  - apply elem_of_fetch_calendar_events in Hin as (rows & row & _ & _ & Hrow).
    by eapply merge_event_status_of_fetched.
Qed.

Lemma Forall2_chain {A} (R : A → A → Prop) (l1 l2 l3 : list A) :
  (∀ x y z, R x y → R y z → R x z) →
  Forall2 R l1 l2 → Forall2 R l2 l3 → Forall2 R l1 l3.
Proof.
  intros Htrans H12. revert l3.
  induction H12 as [|x y l1 l2 Hxy _ IH]; intros l3 H23.
  - by apply Forall2_nil_inv_l in H23 as ->.
  - apply Forall2_cons_inv_l in H23 as (z & l3' & Hyz & H23 & ->).
    constructor; [by eapply Htrans|by apply IH].
Qed.

(** X16. When a run fetches at least one event and its write goes through,
    the file afterwards is a document stamped with the UTC time of the run
    followed by Z, and its events are those of the fetched batch, in the same
    order and number, each with its fetched fields and its fetched status:
    entries of the prior document whose ids were not fetched again are gone,
    and only the flags can differ from the batch. *)
Theorem written_document_holds_the_batch run file :
  batch strptime run ≠ [] → write_outcome run = Written →
  ∃ updated_events,
    (main strptime float run file).1
    = Document (mkCalendarData (Some (utcnow_isoformat run +:+ "Z")%string)
                               updated_events)
    ∧ Forall2 (λ event stored_event,
                 same_fetched_fields event stored_event
                 ∧ status stored_event = status event)
        (batch strptime run) updated_events.
Proof.
  intros Hbatch%is_empty_false Hwritten.
  rewrite main_spec, Hbatch. cbn [fst].
  unfold save_calendar_data. rewrite Hwritten.
  eexists. split; [done|].
  eapply Forall2_chain;
    [|apply (merge_with_existing_fetched_fields run (load_existing_data file))
     |apply check_all_fetched_fields].
  intros event merged_event stored_event [Hsame1 Hstatus1] [Hsame2 Hstatus2].
  split; [by eapply same_fetched_fields_trans|congruence].
Qed.

(** X17. A file that is missing or cannot be loaded is a fresh start: the
    merge leaves the fetched batch as it is, with all flags false, and the
    calls of the run are those of the evaluator on the batch itself. *)
Theorem missing_or_unreadable_file_is_a_fresh_start run file content :
  file = Missing ∨ file = Unreadable content →
  merge_with_existing (batch strptime run) (load_existing_data file)
  = batch strptime run
  ∧ (main strptime float run file).2
    = (check_and_send_notifications strptime float (fetcher_of run)
         (requests_post run) (check_now run) (batch strptime run)).2.
Proof.
  intros Hfile.
  assert (merge_with_existing (batch strptime run) (load_existing_data file)
          = batch strptime run) as Hmerge.
  { assert (load_existing_data file = mkCalendarData None []) as ->
      by (by destruct Hfile as [-> | ->]).
    unfold merge_with_existing. cbn [events old_events_map foldl].
    rewrite <- (list_fmap_id (batch strptime run)) at 2.
    apply list_fmap_ext. intros _ event _. apply merge_event_unseen.
    apply lookup_empty. }
  split; [done|].
  rewrite main_spec, Hmerge.
  destruct (batch strptime run) as [|event events]; [done|]. done.
Qed.

(** X18. Once the file holds a true flag for an id, the flag stays true and
    the trigger makes no further call for the id, through any number of runs
    whose batches have pairwise distinct ids and whose writes go through, as
    long as every run that fetches anything fetches the id. *)
Theorem stored_flag_persists_while_id_is_retained t i runs : ∀ file,
  Forall (λ run, NoDup (id <$> batch strptime run)
                 ∧ write_outcome run = Written) runs →
  retained strptime i true runs →
  stored_flag t i file = true →
  stored_flag t i (main_runs strptime float runs file).1 = true
  ∧ fired t i (main_runs strptime float runs file).2 = [].
Proof.
  induction runs as [|run runs IH]; intros file Hruns Hretained Hstored;
    [done|].
  apply Forall_cons in Hruns as [[Hnodup Hwritten] Hruns].
  cbn [retained orb] in Hretained. destruct Hretained as [Hin Hretained].
  rewrite main_runs_cons. cbn [fst snd].
  assert (stored_flag t i (main strptime float run file).1 = true) as Hkept.
  { destruct (decide (batch strptime run = [])) as [Hbatch|Hbatch].
    - by rewrite main_spec, Hbatch.
    - apply run_keeps_flag; [done..| |done]. by apply Hin. }
  destruct (IH _ Hruns Hretained Hkept) as [Hflag Hfired].
  split; [done|].
  by rewrite fired_app, Hfired, (stored_flag_silences strptime float run file t i).
Qed.


End Stored.

(** ** The rows of a response are handled one by one *)

Lemma omap_length_le {A B} (f : A → option B) (l : list A) :
  (length (omap f l) ≤ length l)%nat.
Proof.
  induction l as [|x l IH]; [done|]. cbn [omap list_omap length].
  destruct (f x); cbn [length]; lia.
Qed.

(** X21. The batch of a response is the concatenation of the batches of its
    parts: every row is judged on its own, the kept rows give one event each
    in the order of the response, nothing is merged or dropped because of
    another row (two rows with the same date and name give two events), and
    there are never more events than rows. *)
Theorem fetch_handles_rows_one_by_one strptime self now rows1 rows2 :
  fetch_calendar_events strptime self now (Markup (rows1 ++ rows2))
  = fetch_calendar_events strptime self now (Markup rows1)
    ++ fetch_calendar_events strptime self now (Markup rows2)
  ∧ (length (fetch_calendar_events strptime self now (Markup rows1))
     ≤ length rows1)%nat.
Proof.
  unfold fetch_calendar_events. split; [apply omap_app|apply omap_length_le].
Qed.

(** ** The id across runs *)

(** Every event that a run computes has the date, the name and the id of an
    event of its fetched batch. *)
Lemma produced_from_batch strptime float run file event :
  produced strptime float run file event →
  ∃ fetched,
    fetched ∈ batch strptime run ∧ same_fetched_fields fetched event.
Proof.
  unfold produced. cbv zeta. fold (batch strptime run).
  set (fetcher := mkFetcher _ _).
  set (merged := merge_with_existing _ _).
  assert (∀ m, m ∈ merged →
            ∃ fetched,
              fetched ∈ batch strptime run ∧ same_fetched_fields fetched m)
    as Hmerged.
  { intros m (fetched & Hin & ->)%elem_of_merge_with_existing.
    exists fetched. split; [done|]. apply merge_event_fetched_fields. }
  intros [Hin|[Hin|[Hin|(a & Hin & <-)]]].
  - exists event. split; [done|]. by repeat split.
  - by apply Hmerged.
  - destruct (check_all_updated_origin strptime float fetcher
                (requests_post run) (check_now run) _ _ Hin)
      as (m & calls & k & Hm & Hbody & _).
    destruct (Hmerged m Hm) as (fetched & Hfetched & Hsame).
    exists fetched. split; [done|].
    eapply same_fetched_fields_trans; [exact Hsame|].
    by destruct (body_fetched_fields strptime float fetcher
                   (requests_post run) (check_now run) _ _ _ _ Hbody)
      as (? & _).
  - destruct (check_all_call_origin strptime float fetcher
                (requests_post run) (check_now run) _ _ Hin)
      as (m & m' & calls & k & Hm & Hbody & Ha & _).
    destruct (Hmerged m Hm) as (fetched & Hfetched & Hsame).
    exists fetched. split; [done|].
    eapply same_fetched_fields_trans; [exact Hsame|].
    destruct (body_fetched_fields strptime float fetcher
                (requests_post run) (check_now run) _ _ _ _ Hbody)
      as (_ & _ & Hcalls).
    by apply Hcalls.
Qed.

Lemma produced_id strptime float run file event :
  produced strptime float run file event →
  id event = Py.slice_to 16 (MD5.hexdigest (date event +:+ "_" +:+ name event)).
Proof.
  intros (fetched & Hin & Hsame)%produced_from_batch.
  unfold same_fetched_fields in Hsame.
  destruct Hsame as (<- & <- & _ & <- & _).
  apply elem_of_fetch_calendar_events in Hin as (rows & row & _ & _ & Hrow).
  apply normalize_row_Some in Hrow
    as (dt & img_key & _ & _ & _ & _ & _ & _ & _ & _ & _ & Hid & _).
  by rewrite Hid.
Qed.

(** C7. The id is a function of the date and the name and of nothing else,
    within one run and across runs. A process is a run of [main]: it builds
    its own fetcher from its environment and has its own clock, response,
    prior file, sink and library functions. Every event that a run computes
    (fetched, merged, updated or notified) has as id the first sixteen
    hexadecimal digits of the MD5 of the bytes of [date_name]; so two events
    with the same date and name have the same id, in one run or in two,
    whatever distinguishes the two runs; and two fetchers give the same id
    for the same date and name. Nothing of the host is read: the digest is
    that of RFC 1321 on the UTF-8 bytes, the same on every platform, and it
    gives the digests of the test suite of the RFC. *)
Theorem event_ids_are_stable_across_runs :
  (∀ strptime float run file event,
     produced strptime float run file event →
     id event
     = Py.slice_to 16 (MD5.hexdigest (date event +:+ "_" +:+ name event)))
  ∧ (∀ strptime1 float1 run1 file1 event1 strptime2 float2 run2 file2 event2,
       produced strptime1 float1 run1 file1 event1 →
       produced strptime2 float2 run2 file2 event2 →
       date event1 = date event2 → name event1 = name event2 →
       id event1 = id event2)
  ∧ (∀ self1 self2 date name,
       generate_event_id self1 date name = generate_event_id self2 date name)
  ∧ MD5.hexdigest "" = "d41d8cd98f00b204e9800998ecf8427e"%string
  ∧ MD5.hexdigest "a" = "0cc175b9c0f1b6a831c399e269772661"%string
  ∧ MD5.hexdigest "abc" = "900150983cd24fb0d6963f7d28e17f72"%string
  ∧ MD5.hexdigest "message digest" = "f96b697d7cb7938d525a2f31aaf161d0"%string
  ∧ MD5.hexdigest "abcdefghijklmnopqrstuvwxyz"
    = "c3fcd3d76192e4007dfb496cca67e13b"%string
  ∧ MD5.hexdigest
      "ABCDEFGHIJKLMNOPQRSTUVWXYZabcdefghijklmnopqrstuvwxyz0123456789"
    = "d174ab98d277d9f5a5611c2c9f419d9f"%string
  ∧ MD5.hexdigest
      "12345678901234567890123456789012345678901234567890123456789012345678901234567890"
    = "57edf4a22be3c955ac49da2e2107b67a"%string.
Proof.
  split_and!; [|..|by vm_compute|by vm_compute|by vm_compute|by vm_compute
               |by vm_compute|by vm_compute|by vm_compute].
  - apply produced_id.
  - intros strptime1 float1 run1 file1 event1 strptime2 float2 run2 file2
      event2 H1%produced_id H2%produced_id Hdate Hname.
    by rewrite H1, H2, Hdate, Hname.
  - done.
Qed.

(** C7 on the CPI release: fetched at 15:30 by a run whose delivery fails,
    and notified at 16:00 by a run with other credentials on the file of the
    first, the provider then listing it with two spaces in its name. *)
Lemma event_ids_are_stable_across_runs_witness :
  let first := Scenario.run_undelivered 15 30 [Scenario.cpi_row] in
  let file :=
    (main Datetime.strptime_strict Py.float_decimal first Missing).1 in
  let relisted :=
    mkRawRow "2024/01/15 21:30:00" (Some "USD") (Some "bull3")
             (Some "CPI  m/m") (Some "21:30") (Some "0.3%") (Some "")
             (Some "0.2%") in
  let now := Datetime.make 2024 1 15 16 0 0 in
  let second :=
    mkRun "other-token" "other-chat" (Markup [relisted]) now now
          "2024-01-15T16:00:00" (λ _ _, true) Written in
  ∃ event1 a,
    event1 ∈ batch Datetime.strptime_strict first
    ∧ a ∈ (main Datetime.strptime_strict Py.float_decimal second file).2
    ∧ date event1 = date (attempt_event a)
    ∧ name event1 = name (attempt_event a)
    ∧ id event1 = id (attempt_event a).
Proof.
  cbn zeta.
  set (first := Scenario.run_undelivered 15 30 [Scenario.cpi_row]).
  set (second := mkRun _ _ _ _ _ _ _ _).
  assert (∃ event1 a,
            event1 ∈ batch Datetime.strptime_strict first
            ∧ a ∈ (check_and_send_notifications Datetime.strptime_strict
                     Py.float_decimal
                     (mkFetcher (env_telegram_bot_token second)
                        (env_telegram_chat_id second))
                     (requests_post second) (check_now second)
                     (merge_with_existing
                        (batch Datetime.strptime_strict second)
                        (load_existing_data
                           (main Datetime.strptime_strict Py.float_decimal
                              first Missing).1))).2
            ∧ a ∈ (main Datetime.strptime_strict Py.float_decimal second
                     (main Datetime.strptime_strict Py.float_decimal first
                        Missing).1).2
            ∧ date event1 = date (attempt_event a)
            ∧ name event1 = name (attempt_event a))
    as (event1 & a & Hin1 & Hin2 & Hlog & Hdate & Hname).
  { vm_compute. eexists _, _.
    split_and!; [apply list_elem_of_here|apply list_elem_of_here
                |apply list_elem_of_here|reflexivity|reflexivity]. }
  exists event1, a. split_and!; [done..|].
  destruct event_ids_are_stable_across_runs as (_ & Hstable & _).
  apply (Hstable Datetime.strptime_strict Py.float_decimal first Missing event1
           Datetime.strptime_strict Py.float_decimal second
           (main Datetime.strptime_strict Py.float_decimal first Missing).1
           (attempt_event a)); [by left| |done..].
  right. right. right. by exists a.
Defined.

(** X12 on the warning of the CPI release, at 15:30 of its day. *)
Lemma calls_are_for_due_events_witness :
  let log :=
    (check_and_send_notifications Datetime.strptime_strict Py.float_decimal
       Scenario.fetcher (λ _ _, true) (Datetime.make 2024 1 15 15 30 0)
       [Scenario.retail_sales; Scenario.cpi_upcoming]).2 in
  ∃ a, a ∈ log
       ∧ ∃ event event_datetime,
           event ∈ [Scenario.retail_sales; Scenario.cpi_upcoming]
           ∧ Datetime.strptime_strict (date event +:+ " " +:+ time event)
               "%Y-%m-%d %H:%M" = Some event_datetime
           ∧ impact event = "High"%string.
Proof.
  cbn zeta.
  assert (∃ a,
            a ∈ (check_and_send_notifications Datetime.strptime_strict
                   Py.float_decimal Scenario.fetcher (λ _ _, true)
                   (Datetime.make 2024 1 15 15 30 0)
                   [Scenario.retail_sales; Scenario.cpi_upcoming]).2)
    as [a Hin] by (vm_compute; eexists; apply list_elem_of_here).
  exists a. split; [done|].
  destruct (calls_are_for_due_events Datetime.strptime_strict Py.float_decimal
              Scenario.fetcher (λ _ _, true) (Datetime.make 2024 1 15 15 30 0)
              _ a Hin) as (event & event_datetime & Hevent & Hparse & Himpact & _).
  by exists event, event_datetime.
Defined.

(** X14 on a fetcher without a bot token. *)
Lemma failed_delivery_changes_nothing_witness :
  let self := mkFetcher "" "chat-id" in
  (telegram_bot_token self = ""%string ∨ telegram_chat_id self = ""%string
   ∨ ∀ k message, (λ (_ : nat) (_ : string), true) k message = false)
  ∧ (check_and_send_notifications Datetime.strptime_strict Py.float_decimal
       self (λ _ _, true) (Datetime.make 2024 1 15 15 30 0)
       [Scenario.retail_sales; Scenario.cpi_upcoming]).1
    = [Scenario.retail_sales; Scenario.cpi_upcoming].
Proof.
  cbn zeta. split; [by left|].
  apply (failed_delivery_changes_nothing Datetime.strptime_strict
           Py.float_decimal (mkFetcher "" "chat-id") (λ _ _, true)
           (Datetime.make 2024 1 15 15 30 0)
           [Scenario.retail_sales; Scenario.cpi_upcoming]).
  by left.
Defined.

(** X15 on the CPI release: the warning of 15:30 is delivered, and a second
    pass at 15:30 is silent. *)
Lemma second_pass_is_silent_witness :
  let now := Datetime.make 2024 1 15 15 30 0 in
  let first :=
    check_and_send_notifications Datetime.strptime_strict Py.float_decimal
      Scenario.fetcher (λ _ _, true) now
      [Scenario.retail_sales; Scenario.cpi_upcoming] in
  (∀ a, a ∈ first.2 → attempt_ok a = true)
  ∧ first.2 ≠ []
  ∧ (check_and_send_notifications Datetime.strptime_strict Py.float_decimal
       Scenario.fetcher (λ _ _, true) now first.1).2 = [].
Proof.
  cbn zeta.
  assert (∀ a,
            a ∈ (check_and_send_notifications Datetime.strptime_strict
                   Py.float_decimal Scenario.fetcher (λ _ _, true)
                   (Datetime.make 2024 1 15 15 30 0)
                   [Scenario.retail_sales; Scenario.cpi_upcoming]).2 →
            attempt_ok a = true) as Hok.
  { intros a Ha. vm_compute in Ha.
    apply list_elem_of_singleton in Ha. by subst a. }
  split_and!; [done|by vm_compute|].
  by rewrite (second_pass_is_silent Datetime.strptime_strict Py.float_decimal
                Scenario.fetcher (λ _ _, true) (Datetime.make 2024 1 15 15 30 0)
                _ Scenario.fetcher (λ _ _, true) Hok).
Defined.

(** X19 on the CPI release of 21:30, six hours ahead at 15:30. *)
Lemma warning_window_is_the_next_twelve_hours_witness :
  let now := Datetime.make 2024 1 15 15 30 0 in
  let result :=
    check_event Datetime.strptime_strict Py.float_decimal Scenario.fetcher
      (λ _ _, true) now 0 Scenario.cpi_upcoming in
  Datetime.strptime_strict
    (date Scenario.cpi_upcoming +:+ " " +:+ time Scenario.cpi_upcoming)
    "%Y-%m-%d %H:%M" = Some (Datetime.make 2024 1 15 21 30 0)
  ∧ now <= Datetime.make 2024 1 15 21 30 0 <= now + 12 * Datetime.us_per_hour
  ∧ ∃ a, a ∈ result.2 ∧ attempt_trigger a = TriggerA.
Proof.
  cbn zeta. split_and!; [reflexivity|by vm_compute..|].
  apply (warning_window_is_the_next_twelve_hours Datetime.strptime_strict
           Py.float_decimal Scenario.fetcher (λ _ _, true)
           (Datetime.make 2024 1 15 15 30 0) 0%nat Scenario.cpi_upcoming
           _ _ (Datetime.make 2024 1 15 21 30 0) eq_refl
           (surjective_pairing _)).
  split_and!; [reflexivity|reflexivity|by vm_compute..].
Defined.

(** X16 on a run that fetches the CPI release and another event over a
    document that holds an entry the provider no longer lists. *)
Lemma written_document_holds_the_batch_witness :
  let run := Scenario.run_at 15 30 [Scenario.cpi_row; Scenario.retail_sales_row] in
  let file :=
    Document (mkCalendarData (Some "2024-01-14T08:00:00Z"%string)
                             [Scenario.pmi_released; Scenario.cpi_warned]) in
  batch Datetime.strptime_strict run ≠ [] ∧ write_outcome run = Written
  ∧ ∃ updated_events,
      (main Datetime.strptime_strict Py.float_decimal run file).1
      = Document (mkCalendarData (Some "2024-01-15T00:00:00Z"%string)
                                 updated_events)
      ∧ length updated_events = 2%nat.
Proof.
  cbn zeta.
  assert (batch Datetime.strptime_strict
            (Scenario.run_at 15 30 [Scenario.cpi_row; Scenario.retail_sales_row])
          ≠ []) as Hbatch by (by vm_compute).
  split_and!; [done|reflexivity|].
  destruct (written_document_holds_the_batch Datetime.strptime_strict
              Py.float_decimal
              (Scenario.run_at 15 30 [Scenario.cpi_row; Scenario.retail_sales_row])
              (Document (mkCalendarData (Some "2024-01-14T08:00:00Z"%string)
                           [Scenario.pmi_released; Scenario.cpi_warned]))
              Hbatch eq_refl) as (updated_events & Hfile & Hall).
  exists updated_events. split; [exact Hfile|].
  apply Forall2_length in Hall. rewrite <- Hall. by vm_compute.
Defined.

(** X17 on a file that holds no JSON. *)
Lemma missing_or_unreadable_file_is_a_fresh_start_witness :
  let run := Scenario.run_at 15 30 [Scenario.cpi_row; Scenario.retail_sales_row] in
  let file := Unreadable "{"%string in
  (file = Missing ∨ file = Unreadable "{"%string)
  ∧ merge_with_existing (batch Datetime.strptime_strict run)
      (load_existing_data file)
    = batch Datetime.strptime_strict run.
Proof.
  cbn zeta. split; [by right|].
  apply (missing_or_unreadable_file_is_a_fresh_start Datetime.strptime_strict
           Py.float_decimal
           (Scenario.run_at 15 30 [Scenario.cpi_row; Scenario.retail_sales_row])
           (Unreadable "{") "{"%string).
  by right.
Defined.

(** X18 on the warning flag of the CPI release through two runs. *)
Lemma stored_flag_persists_while_id_is_retained_witness :
  let rows := [Scenario.cpi_row; Scenario.retail_sales_row] in
  let runs := [Scenario.run_at 15 30 rows; Scenario.run_at 16 30 rows] in
  let file :=
    Document (mkCalendarData (Some "2024-01-14T08:00:00Z"%string)
                             [Scenario.cpi_warned]) in
  let i := id Scenario.cpi_upcoming in
  stored_flag TriggerA i file = true
  ∧ stored_flag TriggerA i
      (main_runs Datetime.strptime_strict Py.float_decimal runs file).1 = true
  ∧ fired TriggerA i
      (main_runs Datetime.strptime_strict Py.float_decimal runs file).2 = [].
Proof.
  cbn zeta. split; [by vm_compute|].
  apply (stored_flag_persists_while_id_is_retained Datetime.strptime_strict
           Py.float_decimal TriggerA (id Scenario.cpi_upcoming)
           [Scenario.run_at 15 30 [Scenario.cpi_row; Scenario.retail_sales_row];
            Scenario.run_at 16 30 [Scenario.cpi_row; Scenario.retail_sales_row]]).
  - repeat (apply List.Forall_cons;
            [split; [compute_done|reflexivity]|]).
    apply List.Forall_nil.
  - cbn [retained]. split_and!; [|intros _ _; compute_done|done].
    intros _ _. compute_done.
  - by vm_compute.
Defined.

